(** * EvoAgent: the capability pipeline (executor, integrator, memory)

    A shallow embedding of [core/executor.py], [core/integrator.py] and
    [core/memory.py], and the properties of the capability pipeline that
    hold (or fail) on it.

    Conventions of the embedding.
    - Python [str] is [string]; the characters are taken to be ASCII, so
      [str.lower] folds [A-Z] and the white space of [str.split] and
      [str.strip] is the ASCII white space of Python
      (code points 9-13, 28-31 and 32).
    - JSON-like Python values are the inductive [pyval]; a [dict] whose
      insertion order is observable is an association list with the
      update-in-place discipline of Python.
    - Tool dicts are mutable objects shared between the caller and the
      store: they live in a heap ([gmap loc Tool]) and the store keeps
      references.
    - What the code obtains from outside the repository is a parameter:
      the child process ([subprocess.run]), [json.loads], [compile],
      [hashlib.md5], [str] of a dict, and the clock readings.
    - The operations of [memory.py] that write files come in two layers:
      the change of state of a call whose writes complete ([save_tool],
      [archive_tool], [delete_tool]), and the call on a file system whose
      writes may raise ([save_tool_fs], [archive_tool_fs],
      [delete_tool_fs]). The integrator is modelled on the first layer. *)

From Stdlib Require Import ZArith QArith String Ascii List Sorted Lia.
From stdpp Require Import base option list gmap strings pretty.

Close Scope Q_scope.
#[local] Set Warnings "-register-all".
Open Scope string_scope.
Open Scope list_scope.

(** ** Python strings *)

Module PyStr.

(** [c.isspace()] on ASCII. *)
Definition isspace (c : ascii) : bool :=
  let n := nat_of_ascii c in
  ((9 <=? n)%nat && (n <=? 13)%nat) || ((28 <=? n)%nat && (n <=? 32)%nat).

(** One character of [str.lower]. *)
Definition lower_char (c : ascii) : ascii :=
  let n := nat_of_ascii c in
  if ((65 <=? n)%nat && (n <=? 90)%nat)%bool then ascii_of_nat (n + 32) else c.

(** [s.lower()] *)
Fixpoint lower (s : string) : string :=
  match s with
  | EmptyString => EmptyString
  | String c s' => String (lower_char c) (lower s')
  end.

(** Drop leading white space. *)
Fixpoint lstrip (s : string) : string :=
  match s with
  | EmptyString => EmptyString
  | String c s' => if isspace c then lstrip s' else s
  end.

(** Drop trailing white space. *)
Fixpoint rstrip (s : string) : string :=
  match s with
  | EmptyString => EmptyString
  | String c s' =>
      match rstrip s' with
      | EmptyString => if isspace c then EmptyString else String c EmptyString
      | r => String c r
      end
  end.

(** [s.strip()] *)
Definition strip (s : string) : string := rstrip (lstrip s).

(** [s.split()]: the maximal runs of non-space characters, in order.
    [cur] is the run being read, reversed. *)
Fixpoint split_go (cur : string) (s : string) : list string :=
  match s with
  | EmptyString =>
      match cur with EmptyString => [] | _ => [String.rev cur] end
  | String c s' =>
      if isspace c
      then match cur with
           | EmptyString => split_go EmptyString s'
           | _ => String.rev cur :: split_go EmptyString s'
           end
      else split_go (String c cur) s'
  end.

Definition split (s : string) : list string := split_go EmptyString s.

(** [w in text]: [w] occurs in [text] as a contiguous substring. *)
Fixpoint contains (text w : string) : bool :=
  String.prefix w text ||
  match text with
  | EmptyString => false
  | String _ text' => contains text' w
  end.

(** [s[:n]] *)
Definition take (n : nat) (s : string) : string := String.substring 0 n s.

(** Truthiness of a string: [bool(s)]. *)
Definition nonempty (s : string) : bool :=
  match s with EmptyString => false | _ => true end.

End PyStr.

(** ** Python values *)

(** The values that cross the process boundary as JSON. *)
Inductive pyval : Type :=
  | PNone
  | PBool (b : bool)
  | PInt (z : Z)
  | PFloat (q : Q)
  | PStr (s : string)
  | PList (l : list pyval)
  | PDict (d : list (string * pyval)).

(** A [dict] with string keys, in insertion order. *)
Module PyDict.
Section Dict.
Context {V : Type}.

(** [d.get(k)] *)
Fixpoint get (k : string) (d : list (string * V)) : option V :=
  match d with
  | [] => None
  | (k', v) :: d' => if String.eqb k k' then Some v else get k d'
  end.

(** [d[k] = v]: an existing key keeps its position, a new key goes last. *)
Fixpoint set (k : string) (v : V) (d : list (string * V)) : list (string * V) :=
  match d with
  | [] => [(k, v)]
  | (k', v') :: d' =>
      if String.eqb k k' then (k, v) :: d' else (k', v') :: set k v d'
  end.

(** [d.pop(k)] on the dict itself. *)
Fixpoint remove (k : string) (d : list (string * V)) : list (string * V) :=
  match d with
  | [] => []
  | (k', v) :: d' => if String.eqb k k' then d' else (k', v) :: remove k d'
  end.

(** [d.values()] *)
Definition values (d : list (string * V)) : list V := map snd d.

(** [d.keys()] *)
Definition keys (d : list (string * V)) : list string := map fst d.
End Dict.
End PyDict.

Module Py.

(** [bool(v)] *)
Definition truthy (v : pyval) : bool :=
  match v with
  | PNone => false
  | PBool b => b
  | PInt z => negb (z =? 0)%Z
  | PFloat q => negb (Qeq_bool q 0)
  | PStr s => PyStr.nonempty s
  | PList l => match l with [] => false | _ => true end
  | PDict d => match d with [] => false | _ => true end
  end.

(** [v == b] for a Python [bool] [b]: [bool] is a number, so [1 == True]
    and [0.0 == False]; a value that is not a number is never equal. *)
Definition eq_bool (v : pyval) (b : bool) : bool :=
  match v with
  | PBool b' => Bool.eqb b' b
  | PInt z => (z =? (if b then 1 else 0))%Z
  | PFloat q => Qeq_bool q (if b then 1 else 0)
  | _ => false
  end.

(** [isinstance(v, dict)], with the dict when it is one. *)
Definition as_dict (v : pyval) : option (list (string * pyval)) :=
  match v with PDict d => Some d | _ => None end.

(** [v is not None] for [v = d.get(k)]: a missing key reads as [None]. *)
Definition is_not_None (v : option pyval) : bool :=
  match v with
  | None | Some PNone => false
  | Some _ => true
  end.

(** The message of the [TypeError] raised by [v["elapsed"] = x] when
    [v] is not a dict. *)
Definition setitem_error (v : pyval) : string :=
  match v with
  | PNone => "'NoneType' object does not support item assignment"
  | PBool _ => "'bool' object does not support item assignment"
  | PInt _ => "'int' object does not support item assignment"
  | PFloat _ => "'float' object does not support item assignment"
  | PStr _ => "'str' object does not support item assignment"
  | PList _ => "list indices must be integers or slices, not str"
  | PDict _ => ""
  end.

End Py.

(** ** Tools and test cases *)

(** One entry of a tool's [test_cases]; an absent key is [None]. *)
Record TestCase : Type := {
  tc_input : option pyval;
  tc_expect_success : option bool;
  tc_label : option string
}.

(** A tool dict: the keys the pipeline reads or writes; an absent key is
    [None]. *)
Record Tool : Type := {
  name : option string;
  func_name : option string;
  code : option string;
  description : option string;
  test_cases : option (list TestCase);
  updated_at : option string
}.

(** The empty dict [{}]. *)
Definition empty_tool : Tool :=
  {| name := None; func_name := None; code := None; description := None;
     test_cases := None; updated_at := None |}.

#[global] Instance Tool_inhabited : Inhabited Tool := populate empty_tool.

(** [tool["name"] = n] *)
Definition set_name (n : string) (t : Tool) : Tool :=
  {| name := Some n; func_name := func_name t; code := code t;
     description := description t; test_cases := test_cases t;
     updated_at := updated_at t |}.

(** [tool["updated_at"] = ts] *)
Definition set_updated_at (ts : string) (t : Tool) : Tool :=
  {| name := name t; func_name := func_name t; code := code t;
     description := description t; test_cases := test_cases t;
     updated_at := Some ts |}.

(** [bool(tool)]: a dict is false when it has no key. *)
Definition tool_truthy (t : Tool) : bool :=
  match name t, func_name t, code t, description t, test_cases t, updated_at t with
  | None, None, None, None, None, None => false
  | _, _, _, _, _, _ => true
  end.

(** ** memory.py *)

(** References to tool dicts. *)
Abbreviation loc := positive.

(** The state [Memory] works on: the tool dicts that the store and its
    callers share ([heap]), the in-memory index [self._tools] (name to
    dict, in insertion order), and the two directories of JSON files
    (file name to the content written). *)
Record Memory : Type := {
  heap : gmap loc Tool;
  _tools : list (string * loc);
  tools_dir : gmap string Tool;
  archive_dir : gmap string Tool
}.

Section MemoryOps.

(** [str(tool)] and [hashlib.md5(s.encode()).hexdigest()]. *)
Variable py_str : Tool -> string.
Variable md5_hexdigest : string -> string.

Definition _short_hash (s : string) : string :=
  PyStr.take 10 (md5_hexdigest s).

(** [Memory.save_tool(tool)] when the write of the tool file completes
    ([save_tool_fs] below is the call with a write that may raise); [now]
    is [datetime.utcnow().isoformat()]. *)
Definition save_tool (now : string) (r : loc) (m : Memory) : Memory :=
  let tool := heap m !!! r in
  let nm := default ("tool_" +:+ _short_hash (py_str tool)) (name tool) in
  let tool' := set_updated_at now (set_name nm tool) in
  {| heap := <[r := tool']> (heap m);
     _tools := PyDict.set nm r (_tools m);
     tools_dir := <[nm +:+ ".json" := tool']> (tools_dir m);
     archive_dir := archive_dir m |}.

(** The name [save_tool] files a dict under, spelled out: the name the
    dict carries, or the one made from the digest of its text. *)
Definition saved_name (t : Tool) : string :=
  match name t with
  | Some n => n
  | None => "tool_" +:+ PyStr.take 10 (md5_hexdigest (py_str t))
  end.

(** [Memory.get_tool(name)] *)
Definition get_tool (nm : string) (m : Memory) : option loc :=
  PyDict.get nm (_tools m).

(** [Memory.all_tools()] *)
Definition all_tools (m : Memory) : list loc := PyDict.values (_tools m).

(** The text a tool is matched against:
    [f"{tool.get('name','')} {tool.get('description','')}".lower()]. *)
Definition tool_text (t : Tool) : string :=
  PyStr.lower (default "" (name t) +:+ " " +:+ default "" (description t)).

(** [set(task.lower().split())], as the list of its distinct words. *)
Definition task_words (task : string) : list string :=
  remove_dups (PyStr.split (PyStr.lower task)).

(** [sum(1 for w in words if w in text)] *)
Definition score (words : list string) (t : Tool) : nat :=
  length (filter (fun w => PyStr.contains (tool_text t) w = true) words).

(** The loop of [best_tool_for] over [self._tools.values()], carrying
    [(best, best_score)]. *)
Fixpoint best_loop (h : gmap loc Tool) (words : list string)
    (tools : list loc) (best : option loc) (best_score : nat)
    : option loc * nat :=
  match tools with
  | [] => (best, best_score)
  | r :: tools' =>
      let s := score words (h !!! r) in
      if (best_score <? s)%nat
      then best_loop h words tools' (Some r) s
      else best_loop h words tools' best best_score
  end.

(** [Memory.best_tool_for(task)] *)
Definition best_tool_for (task : string) (m : Memory) : option loc :=
  let '(best, best_score) :=
    best_loop (heap m) (task_words task) (all_tools m) None 0 in
  if (2 <=? best_score)%nat then best else None.

(** [Memory.archive_tool(tool)] when the write of the archive file
    completes; [stamp] is [datetime.utcnow().strftime("%Y%m%d_%H%M%S")]. *)
Definition archive_tool (stamp : string) (t : Tool) (m : Memory) : Memory :=
  let nm := default "unknown" (name t) in
  {| heap := heap m;
     _tools := _tools m;
     tools_dir := tools_dir m;
     archive_dir := <[nm +:+ "_" +:+ stamp +:+ ".json" := t]> (archive_dir m) |}.

(** [Memory.delete_tool(name)] when its write and its removal complete. *)
Definition delete_tool (stamp : string) (nm : string) (m : Memory) : Memory :=
  match PyDict.get nm (_tools m) with
  | None => m
  | Some r =>
      let m1 :=
        {| heap := heap m;
           _tools := PyDict.remove nm (_tools m);
           tools_dir := tools_dir m;
           archive_dir := archive_dir m |} in
      let m2 := archive_tool stamp (heap m !!! r) m1 in
      {| heap := heap m2;
         _tools := _tools m2;
         tools_dir := delete (nm +:+ ".json") (tools_dir m2);
         archive_dir := archive_dir m2 |}
  end.

(** [Memory._load_tools()]: [files] are the [*.json] files of the tools
    directory in the order [glob] yields them, each with its stem and
    the dict it parses to ([None] when reading or parsing fails, or the
    content is not a dict). Every parsed dict is a new object. *)
Fixpoint _load_tools (files : list (string * option Tool)) (next : loc)
    (h : gmap loc Tool) (tools : list (string * loc))
    : gmap loc Tool * list (string * loc) :=
  match files with
  | [] => (h, tools)
  | (stem, None) :: files' => _load_tools files' next h tools
  | (stem, Some t) :: files' =>
      _load_tools files' (Pos.succ next) (<[next := t]> h)
        (PyDict.set (default stem (name t)) next tools)
  end.

(** The operations of [Memory] that write: to the index, the tool dicts
    or the directories. *)
Inductive MemOp : Type :=
  | OpSaveTool (now : string) (r : loc)
  | OpArchiveTool (stamp : string) (t : Tool)
  | OpDeleteTool (stamp : string) (nm : string).

Definition apply_op (op : MemOp) (m : Memory) : Memory :=
  match op with
  | OpSaveTool now r => save_tool now r m
  | OpArchiveTool stamp t => archive_tool stamp t m
  | OpDeleteTool stamp nm => delete_tool stamp nm m
  end.

End MemoryOps.

(** The invariant of the index: every key is the name its dict carries. *)
Definition keys_are_names (m : Memory) : Prop :=
  forall k r, In (k, r) (_tools m) -> name (heap m !!! r) = Some k.

(** *** The relevance score as the specification words it

    The task text and the text of the capability (its name and its
    description) are both split into sets of lowercase words, and the
    score is the number of words they share. *)
Definition spec_tokens (s : string) : gset string :=
  list_to_set (PyStr.split (PyStr.lower s)).

Definition spec_score (task : string) (t : Tool) : nat :=
  size (spec_tokens task
        ∩ spec_tokens (default "" (name t) +:+ " " +:+ default "" (description t))).

(** What the specification asks of the answer [res] of [best_match]: a
    stored capability of maximal [spec_score] when that score is at least
    2, and nothing when no stored capability scores 2. *)
Definition spec_best_match (task : string) (m : Memory) (res : option loc) : Prop :=
  match res with
  | Some r =>
      In r (all_tools m)
      /\ 2 <= spec_score task (heap m !!! r)
      /\ forall r', In r' (all_tools m) ->
           spec_score task (heap m !!! r') <= spec_score task (heap m !!! r)
  | None =>
      forall r', In r' (all_tools m) -> spec_score task (heap m !!! r') < 2
  end.

(** ** executor.py *)

(** A raised exception, and a computation that returns or raises. *)
Inductive exn : Type :=
  | KeyError (key : string)
  | OSError (msg : string)
  | ValueError (msg : string).

Inductive result (A : Type) : Type :=
  | Ok (a : A)
  | Raise (e : exn).
Arguments Ok {A} a.
Arguments Raise {A} e.

(** The script [_build_runner] writes, by the three texts it splices in. *)
Record Runner : Type := {
  runner_code : string;
  runner_func_name : string;
  runner_kwargs : pyval
}.

(** What [subprocess.run] does with a script, and the clock readings
    [time.time() - start] taken afterwards: [elapsed] right after the
    call, [late] in the handler of an exception raised after it. *)
Inductive ProcOutcome : Type :=
  | Exited (stdout stderr : string) (elapsed late : Q)
  | TimeoutExpired (elapsed : Q)
  | Failed (msg : string) (elapsed : Q).

(** The Gate's per-case row and its verdict. *)
Record Row : Type := {
  row_label : string;
  row_passed : bool;
  row_expected_success : bool;
  row_actual_success : pyval;
  row_output : pyval;
  row_error : pyval;
  row_elapsed : pyval
}.

Record Verdict : Type := {
  passed : bool;
  pass_rate : Q;
  passed_count : option nat;
  total_count : option nat;
  results : list Row;
  error : option string
}.

(** The rows that passed. *)
Definition hits (rows : list Row) : nat :=
  length (List.filter row_passed rows).

(** [r.get(k)] on a result dict: a missing key reads as [None]. *)
Definition rget (k : string) (r : list (string * pyval)) : pyval :=
  default PNone (PyDict.get k r).

Section ExecutorOps.

(** [compile(code, "<generated>", "exec")] on the sources it either
    accepts or rejects with [SyntaxError]: [Some msg] when it raises
    [SyntaxError] with [str(e) = msg]. A source on which [compile] raises
    another exception, which [_syntax_check] does not catch, is outside
    this parameter. *)
Variable py_compile : string -> option string.
(** [json.loads]: [None] when it raises [JSONDecodeError]. *)
Variable json_loads : string -> option pyval.
(** The child process: the outcome of running a script, given the
    scripts run before it. *)
Variable spawn : list Runner -> Runner -> ProcOutcome.
(** [self.timeout], in seconds. *)
Variable timeout : nat.

Definition _syntax_check (c : string) : bool * option string :=
  match py_compile c with
  | None => (true, None)
  | Some msg => (false, Some msg)
  end.

Definition _build_runner (c fn : string) (kwargs : pyval) : Runner :=
  {| runner_code := c; runner_func_name := fn; runner_kwargs := kwargs |}.

(** The four literal result dicts of [_run]. *)
Definition failure (err : string) (elapsed : Q) : list (string * pyval) :=
  [("ok", PBool false); ("output", PNone); ("error", PStr err);
   ("elapsed", PFloat elapsed)].

Definition raw_success (stdout : string) (elapsed : Q) : list (string * pyval) :=
  [("ok", PBool true); ("output", PStr stdout); ("elapsed", PFloat elapsed);
   ("error", PNone)].

(** The result [_run] builds from the outcome of the child. *)
Definition run_result (o : ProcOutcome) : list (string * pyval) :=
  match o with
  | Exited out err elapsed late =>
      let stdout := PyStr.strip out in
      if PyStr.nonempty stdout then
        match json_loads stdout with
        | Some data =>
            match Py.as_dict data with
            | Some d => PyDict.set "elapsed" (PFloat elapsed) d
            | None => failure (Py.setitem_error data) late
            end
        | None => raw_success stdout elapsed
        end
      else
        let stderr := PyStr.strip err in
        failure (if PyStr.nonempty stderr then stderr else "no output") elapsed
  | TimeoutExpired elapsed =>
      failure ("timed out after " +:+ pretty timeout +:+ "s") elapsed
  | Failed msg elapsed => failure msg elapsed
  end.

(** [Executor._run(script)]; the state is the list of the scripts run. *)
Definition _run (script : Runner) (log : list Runner)
    : list Runner * list (string * pyval) :=
  (log ++ [script], run_result (spawn log script)).

(** [Executor.run_code(code, func_name, kwargs)] *)
Definition run_code (c fn : string) (kwargs : pyval) (log : list Runner)
    : list Runner * list (string * pyval) :=
  _run (_build_runner c fn (if Py.truthy kwargs then kwargs else PDict [])) log.

(** [Executor.run_tool(tool, task, kwargs)] *)
Definition run_tool (tool : Tool) (task : string) (kwargs : pyval)
    (log : list Runner) : list Runner * list (string * pyval) :=
  let c := default "" (code tool) in
  let fn := default "" (func_name tool) in
  if negb (PyStr.nonempty c) || negb (PyStr.nonempty fn) then
    (log, [("ok", PBool false); ("output", PNone);
           ("error", PStr "tool missing code or func_name")])
  else
    let call_args :=
      if Py.truthy kwargs then kwargs
      else if PyStr.nonempty task then PDict [("task", PStr task)]
      else PDict [] in
    _run (_build_runner c fn call_args) log.

(** [actual_ok] of [test_tool], from the result [r], its ["ok"] entry
    and the case's [expect_ok]. *)
Definition actual_success (ok : pyval) (r : list (string * pyval))
    (expect_ok : bool) : pyval :=
  let actual_ok :=
    if Py.truthy ok
    then PBool (Py.is_not_None (Some (rget "output" r)) || negb expect_ok)
    else ok in
  if Py.truthy ok then
    match Py.as_dict (rget "output" r) with
    | Some d => default (PBool true) (PyDict.get "success" d)
    | None => actual_ok
    end
  else actual_ok.

(** The loop of [test_tool] over the test cases, carrying [results]
    and [passed]. *)
Fixpoint test_loop (c fn : string) (tcs : list TestCase)
    (rows : list Row) (npassed : nat) (log : list Runner)
    : list Runner * result (list Row * nat) :=
  match tcs with
  | [] => (log, Ok (rows, npassed))
  | tc :: tcs' =>
      let inp := default (PDict []) (tc_input tc) in
      let expect_ok := default true (tc_expect_success tc) in
      let label := default "unnamed" (tc_label tc) in
      let '(log1, r) := run_code c fn inp log in
      match PyDict.get "ok" r with
      | None => (log1, Raise (KeyError "ok"))
      | Some ok =>
          let actual_ok := actual_success ok r expect_ok in
          let hit := Py.eq_bool actual_ok expect_ok in
          let row :=
            {| row_label := label; row_passed := hit;
               row_expected_success := expect_ok;
               row_actual_success := actual_ok;
               row_output := rget "output" r;
               row_error := rget "error" r;
               row_elapsed := rget "elapsed" r |} in
          test_loop c fn tcs' (rows ++ [row])
            (if hit then S npassed else npassed) log1
      end
  end.

(** [passed / total] *)
Definition rate_of (npassed total : nat) : Q :=
  Z.of_nat npassed # Pos.of_nat total.

(** [Executor.test_tool(tool)] *)
Definition test_tool (tool : Tool) (log : list Runner)
    : list Runner * result Verdict :=
  let c := default "" (code tool) in
  let fn := default "" (func_name tool) in
  let tcs := default [] (test_cases tool) in
  match _syntax_check c with
  | (false, err) =>
      (log, Ok {| passed := false; pass_rate := 0; passed_count := None;
                  total_count := None; results := [];
                  error := Some ("SyntaxError: " +:+ default "None" err) |})
  | (true, _) =>
      match tcs with
      | [] =>
          (log, Ok {| passed := true; pass_rate := 1; passed_count := None;
                      total_count := None; results := []; error := None |})
      | _ =>
          match test_loop c fn tcs [] 0 log with
          | (log1, Raise e) => (log1, Raise e)
          | (log1, Ok (rows, npassed)) =>
              let total := length tcs in
              let rate := rate_of npassed total in
              (log1, Ok {| passed := Qle_bool (3 # 4) rate;
                           pass_rate := rate;
                           passed_count := Some npassed;
                           total_count := Some total;
                           results := rows;
                           error := None |})
          end
      end
  end.

End ExecutorOps.

(** ** integrator.py *)

(** The dict [integrate] returns. *)
Record Report : Type := {
  rep_ok : bool;
  rep_tool_name : string;
  rep_pass_rate : option Q;
  rep_test_results : list Row;
  rep_error : option string
}.

(** The configuration [Integrator.__init__] stores: [self.threshold]. *)
Record Integrator : Type := {
  threshold : Q
}.

(** [Integrator(memory, executor)] with the default [pass_threshold=0.75]. *)
Definition Integrator_default : Integrator := {| threshold := 3 # 4 |}.

Section IntegratorOps.

Variable py_str : Tool -> string.
Variable md5_hexdigest : string -> string.
Variable py_compile : string -> option string.
Variable json_loads : string -> option pyval.
Variable spawn : list Runner -> Runner -> ProcOutcome.
Variable timeout : nat.

(** [Integrator.integrate(tool)] on the memory and the engine log;
    [now] is the clock reading [save_tool] takes. [self.threshold] is
    read by the log message of the failing branch only; the log message
    of the passing branch reads [test_result['passed_count']] after the
    tool is saved. *)
Definition integrate (self : Integrator) (now : string) (r : loc)
    (m : Memory) (log : list Runner)
    : Memory * list Runner * result Report :=
  let tool := heap m !!! r in
  let nm := default "unnamed" (name tool) in
  match test_tool py_compile json_loads spawn timeout tool log with
  | (log1, Raise e) => (m, log1, Raise e)
  | (log1, Ok test_result) =>
      if passed test_result then
        let m1 := save_tool py_str md5_hexdigest now r m in
        match passed_count test_result, total_count test_result with
        | Some _, Some _ =>
            (m1, log1,
             Ok {| rep_ok := true; rep_tool_name := nm;
                   rep_pass_rate := Some (pass_rate test_result);
                   rep_test_results := results test_result;
                   rep_error := None |})
        | None, _ => (m1, log1, Raise (KeyError "passed_count"))
        | Some _, None => (m1, log1, Raise (KeyError "total_count"))
        end
      else
        (m, log1,
         Ok {| rep_ok := false; rep_tool_name := nm;
               rep_pass_rate := Some (pass_rate test_result);
               rep_test_results := results test_result;
               rep_error :=
                 Some (match error test_result with
                       | Some e => if PyStr.nonempty e then e
                                   else "did not meet pass threshold"
                       | None => "did not meet pass threshold"
                       end) |})
  end.

(** [Integrator.force_integrate(tool)] *)
Definition force_integrate (now : string) (r : loc) (m : Memory)
    : Memory * Report :=
  let nm := default "unnamed" (name (heap m !!! r)) in
  (save_tool py_str md5_hexdigest now r m,
   {| rep_ok := true; rep_tool_name := nm; rep_pass_rate := None;
      rep_test_results := []; rep_error := None |}).

(** [Integrator.upgrade(tool_name, new_tool)]; [stamp] is the clock
    reading [archive_tool] takes. *)
Definition upgrade (self : Integrator) (stamp now : string)
    (tool_name : string) (r : loc) (m : Memory) (log : list Runner)
    : Memory * list Runner * result Report :=
  let m1 :=
    match get_tool tool_name m with
    | Some old =>
        if tool_truthy (heap m !!! old)
        then archive_tool stamp (heap m !!! old) m
        else m
    | None => m
    end in
  integrate self now r m1 log.

End IntegratorOps.
(** ** executor.py: the script of a case *)

(** The script [test_tool] has [run_code] build for a case: its input, or
    no argument when the input is missing or empty. *)
Definition case_runner (c fn : string) (tc : TestCase) : Runner :=
  let inp := default (PDict []) (tc_input tc) in
  _build_runner c fn (if Py.truthy inp then inp else PDict []).

(** ** memory.py: writes that raise *)

(** The two directories [Memory] writes to. *)
Inductive Dir : Type :=
  | ToolsDir
  | ArchiveDir.

(** What writing a file, or removing one, does: it completes, or it raises
    [e] ([OSError] for a path that cannot be opened, [ValueError] for a path
    with a NUL character) and leaves the directory with the content
    [remains]. *)
Inductive WriteOutcome : Type :=
  | Completed
  | WriteRaised (e : exn) (remains : gmap string Tool).

Section FsOps.

Variable py_str : Tool -> string.
Variable md5_hexdigest : string -> string.
(** [path.write_text(text)] for the file [f] of a directory whose content
    is [d]. *)
Variable write_text : Dir -> gmap string Tool -> string -> Tool -> WriteOutcome.
(** [p.unlink()] for the file [f] of the tools directory. *)
Variable unlink : gmap string Tool -> string -> WriteOutcome.

(** [Memory.save_tool(tool)]: the name and the stamp are written into the
    dict, then the file is written, then the dict is indexed; a write that
    raises leaves the index as it was. *)
Definition save_tool_fs (now : string) (r : loc) (m : Memory)
    : Memory * result unit :=
  let tool := heap m !!! r in
  let nm := default ("tool_" +:+ _short_hash md5_hexdigest (py_str tool)) (name tool) in
  let tool' := set_updated_at now (set_name nm tool) in
  match write_text ToolsDir (tools_dir m) (nm +:+ ".json") tool' with
  | Completed => (save_tool py_str md5_hexdigest now r m, Ok tt)
  | WriteRaised e remains =>
      ({| heap := <[r := tool']> (heap m);
          _tools := _tools m;
          tools_dir := remains;
          archive_dir := archive_dir m |}, Raise e)
  end.

(** [Memory.archive_tool(tool)] *)
Definition archive_tool_fs (stamp : string) (t : Tool) (m : Memory)
    : Memory * result unit :=
  let nm := default "unknown" (name t) in
  match write_text ArchiveDir (archive_dir m) (nm +:+ "_" +:+ stamp +:+ ".json") t with
  | Completed => (archive_tool stamp t m, Ok tt)
  | WriteRaised e remains =>
      ({| heap := heap m; _tools := _tools m; tools_dir := tools_dir m;
          archive_dir := remains |}, Raise e)
  end.

(** [Memory.delete_tool(name)]: the dict is popped from the index, then
    archived, then its file is removed when there is one. *)
Definition delete_tool_fs (stamp : string) (nm : string) (m : Memory)
    : Memory * result unit :=
  match PyDict.get nm (_tools m) with
  | None => (m, Ok tt)
  | Some r =>
      let m1 :=
        {| heap := heap m;
           _tools := PyDict.remove nm (_tools m);
           tools_dir := tools_dir m;
           archive_dir := archive_dir m |} in
      match archive_tool_fs stamp (heap m !!! r) m1 with
      | (m2, Raise e) => (m2, Raise e)
      | (m2, Ok _) =>
          match tools_dir m2 !! (nm +:+ ".json") with
          | None => (m2, Ok tt)
          | Some _ =>
              match unlink (tools_dir m2) (nm +:+ ".json") with
              | Completed =>
                  ({| heap := heap m2; _tools := _tools m2;
                      tools_dir := delete (nm +:+ ".json") (tools_dir m2);
                      archive_dir := archive_dir m2 |}, Ok tt)
              | WriteRaised e remains =>
                  ({| heap := heap m2; _tools := _tools m2; tools_dir := remains;
                      archive_dir := archive_dir m2 |}, Raise e)
              end
          end
      end
  end.

(** A writing operation of the store, on the file system. *)
Definition apply_op_fs (op : MemOp) (m : Memory) : Memory * result unit :=
  match op with
  | OpSaveTool now r => save_tool_fs now r m
  | OpArchiveTool stamp t => archive_tool_fs stamp t m
  | OpDeleteTool stamp nm => delete_tool_fs stamp nm m
  end.

End FsOps.

(** ** executor.py: the result of a case *)

Section GateCases.

Variable json_loads : string -> option pyval.
Variable spawn : list Runner -> Runner -> ProcOutcome.
Variable timeout : nat.

(** The result the engine returns for the case [tc], at position [i] of
    the cases [tcs] of a run of [test_tool] that started with the engine
    log [log]: by then the scripts of the cases before it were run. *)
Definition case_result (c fn : string) (log : list Runner)
    (tcs : list TestCase) (i : nat) (tc : TestCase) : list (string * pyval) :=
  run_result json_loads timeout
    (spawn (log ++ map (case_runner c fn) (take i tcs)) (case_runner c fn tc)).

End GateCases.

(** ** memory.py: the experience log *)

(** An experience dict: the keys [store] and [recall] read or write; an
    absent key is [None]. *)
Record Experience : Type := {
  exp_task : option string;
  exp_success : option bool;
  exp_learned : option (list string);
  exp_ts : option string;
  exp_id : option string
}.

(** [experience["id"] = h] *)
Definition set_id (h : string) (e : Experience) : Experience :=
  {| exp_task := exp_task e; exp_success := exp_success e;
     exp_learned := exp_learned e; exp_ts := exp_ts e; exp_id := Some h |}.

(** [collections.deque] with a [maxlen], as the list of its items, oldest
    first. *)
Module Deque.

(** [deque(items, maxlen=n)]: the last [n] items. *)
Definition make {A : Type} (maxlen : nat) (items : list A) : list A :=
  drop (length items - maxlen) items.

(** [d.append(x)]: a full deque drops its oldest item. *)
Definition append {A : Type} (maxlen : nat) (x : A) (d : list A) : list A :=
  make maxlen (d ++ [x]).

End Deque.

(** The experience part of [Memory]: [self._experiences], its [maxlen]
    ([max_experiences] of the configuration) and the content of
    [experiences.json] ([None] while nothing was written). *)
Record ExperienceLog : Type := {
  _experiences : list Experience;
  max_experiences : nat;
  exp_file : option (list Experience)
}.

(** What [recall] returns for an experience. *)
Record Recalled : Type := {
  rec_task : option string;
  rec_success : option bool;
  rec_learned : list string
}.

Section ExperienceOps.

(** [str(experience)] and [hashlib.md5(s.encode()).hexdigest()]. *)
Variable exp_str : Experience -> string.
Variable md5_hexdigest : string -> string.

(** [Memory.__init__], the experiences: [deque(loaded or [], maxlen)]. *)
Definition experiences_init (loaded : option (list Experience)) (maxlen : nat)
    : ExperienceLog :=
  {| _experiences := Deque.make maxlen (default [] loaded);
     max_experiences := maxlen;
     exp_file := loaded |}.

(** [Memory.store(experience)] *)
Definition store (experience : Experience) (l : ExperienceLog) : ExperienceLog :=
  let e := set_id (_short_hash md5_hexdigest (exp_str experience)) experience in
  let items := Deque.append (max_experiences l) e (_experiences l) in
  {| _experiences := items;
     max_experiences := max_experiences l;
     exp_file := Some items |}.

(** The text an experience is matched against:
    [f"{exp.get('task','')} {' '.join(exp.get('learned',[]))}".lower()]. *)
Definition exp_text (e : Experience) : string :=
  PyStr.lower (default "" (exp_task e) +:+ " "
               +:+ String.concat " " (default [] (exp_learned e))).

Definition exp_score (words : list string) (e : Experience) : nat :=
  length (filter (fun w => PyStr.contains (exp_text e) w = true) words).

(** The loop of [recall]: the experiences that score, with their score. *)
Fixpoint recall_scored (words : list string) (exps : list Experience)
    : list (nat * Experience) :=
  match exps with
  | [] => []
  | e :: exps' =>
      let s := exp_score words e in
      if (0 <? s)%nat then (s, e) :: recall_scored words exps'
      else recall_scored words exps'
  end.

(** [scored.sort(key=lambda x: x[0], reverse=True)]: the sort is stable, so
    pairs of equal score keep their order. *)
Fixpoint insert_desc {A : Type} (x : nat * A) (l : list (nat * A)) : list (nat * A) :=
  match l with
  | [] => [x]
  | y :: l' => if (fst x <? fst y)%nat then y :: insert_desc x l' else x :: y :: l'
  end.

Fixpoint sort_desc {A : Type} (l : list (nat * A)) : list (nat * A) :=
  match l with
  | [] => []
  | x :: l' => insert_desc x (sort_desc l')
  end.

(** [l[:k]] for an [int] [k]: a negative [k] counts from the end. *)
Definition slice_to {A : Type} (k : Z) (l : list A) : list A :=
  if (0 <=? k)%Z then take (Z.to_nat k) l
  else take (length l - Z.to_nat (- k)) l.

Definition recalled (e : Experience) : Recalled :=
  {| rec_task := exp_task e; rec_success := exp_success e;
     rec_learned := default [] (exp_learned e) |}.

(** The ranking [recall] cuts and projects. *)
Definition recall_ranked (query : string) (l : ExperienceLog)
    : list (nat * Experience) :=
  sort_desc (recall_scored (task_words query) (_experiences l)).

(** [Memory.recall(query, k)] *)
Definition recall (query : string) (k : Z) (l : ExperienceLog) : list Recalled :=
  map (fun se => recalled (snd se)) (slice_to k (recall_ranked query l)).

End ExperienceOps.

(** ** evolution.py *)

(** [_pass_rate(results)] *)
Definition _pass_rate (results : list Row) : option Q :=
  match results with
  | [] => None
  | _ => Some (rate_of (hits results) (length results))
  end.

(** [EvolutionLog]: [self.history], a list of entry dicts, and the content
    of [history.json]. *)
Record EvolutionLog : Type := {
  history : list (list (string * pyval));
  history_file : option (list (list (string * pyval)))
}.

(** The dict literal of [record]: its six keys, then the entries of
    [metadata], which replace a key they repeat. *)
Definition evo_entry (generation : Z) (now trigger : string)
    (new_tool description : pyval) (test_results : option (list Row))
    (metadata : option (list (string * pyval))) : list (string * pyval) :=
  let rate :=
    match test_results with
    | Some (r :: rs) =>
        match _pass_rate (r :: rs) with Some q => PFloat q | None => PNone end
    | _ => PNone
    end in
  fold_left (fun d kv => PyDict.set (fst kv) (snd kv) d) (default [] metadata)
    [("generation", PInt generation); ("timestamp", PStr now);
     ("trigger", PStr trigger); ("new_tool", new_tool);
     ("description", description); ("test_pass_rate", rate)].

(** [EvolutionLog.record(...)]; [now] is [datetime.utcnow().isoformat()]. *)
Definition record (generation : Z) (now trigger : string)
    (new_tool description : pyval) (test_results : option (list Row))
    (metadata : option (list (string * pyval))) (l : EvolutionLog) : EvolutionLog :=
  let h := history l ++ [evo_entry generation now trigger new_tool description
                           test_results metadata] in
  {| history := h; history_file := Some h |}.

(** [v[:n]]: [None] when the value cannot be sliced. *)
Definition py_prefix (n : nat) (v : pyval) : option pyval :=
  match v with
  | PStr s => Some (PStr (PyStr.take n s))
  | PList l => Some (PList (take n l))
  | _ => None
  end.

(** An item of [timeline]. *)
Record TimelineItem : Type := {
  tl_gen : pyval;
  tl_ts : pyval;
  tl_tool : pyval;
  tl_trigger : pyval
}.

(** One item of the comprehension of [timeline]; [None] when building it
    raises (a missing key, a value that cannot be sliced). *)
Definition timeline_item (e : list (string * pyval)) : option TimelineItem :=
  match PyDict.get "generation" e, PyDict.get "timestamp" e,
        PyDict.get "new_tool" e, PyDict.get "trigger" e with
  | Some g, Some ts, Some t, Some tr =>
      match py_prefix 10 ts, py_prefix 60 tr with
      | Some ts10, Some tr60 =>
          Some {| tl_gen := g; tl_ts := ts10; tl_tool := t; tl_trigger := tr60 |}
      | _, _ => None
      end
  | _, _, _, _ => None
  end.

(** [EvolutionLog.timeline()]; [None] when it raises. *)
Fixpoint timeline_of (h : list (list (string * pyval))) : option (list TimelineItem) :=
  match h with
  | [] => Some []
  | e :: h' =>
      match timeline_item e with
      | None => None
      | Some it =>
          match timeline_of h' with
          | None => None
          | Some its => Some (it :: its)
          end
      end
  end.

Definition timeline (l : EvolutionLog) : option (list TimelineItem) :=
  timeline_of (history l).

(** ** agent.py: evolving and reporting *)

(** [AgentState] *)
Record AgentState : Type := {
  st_session : string;
  st_generation : Z;
  st_done : nat;
  st_failed : nat;
  st_tools : list (option string)
}.

(** A Python value for [tool.get("name")]. *)
Definition name_value (n : option string) : pyval :=
  match n with Some s => PStr s | None => PNone end.

(** What an [EvoAgent] holds: its state, its memory, the log of the
    engine, and its evolution log. *)
Record Agent : Type := {
  ag_state : AgentState;
  ag_memory : Memory;
  ag_engine : list Runner;
  ag_evo : EvolutionLog
}.

Section AgentOps.

Variable py_str : Tool -> string.
Variable md5_hexdigest : string -> string.
Variable py_compile : string -> option string.
Variable json_loads : string -> option pyval.
Variable spawn : list Runner -> Runner -> ProcOutcome.
Variable timeout : nat.
(** [CodeWriter.write_tool(description, context)]: the dict the language
    model's answer parses to, or [None]. A dict it returns is never empty
    (it carries ["code"], ["created_at"] and ["source"]). *)
Variable write_tool : string -> string -> option Tool.

(** A new tool dict in the heap: a reference not yet in use. *)
Definition new_tool_ref (m : Memory) : loc := fresh (dom (heap m)).

Definition alloc_tool (t : Tool) (m : Memory) : Memory :=
  {| heap := <[new_tool_ref m := t]> (heap m);
     _tools := _tools m;
     tools_dir := tools_dir m;
     archive_dir := archive_dir m |}.

(** [EvoAgent._evolve(task, reflection)], with
    [evolution_description] the entry of that name in
    [reflection.content]; [now_save] and [now_record] are the clock
    readings of [save_tool] and [record]. *)
Definition _evolve (now_save now_record : string) (task : string)
    (evolution_description : option string) (a : Agent) : Agent * result bool :=
  let desc := default "" evolution_description in
  if negb (PyStr.nonempty desc) then (a, Ok false)
  else
    match write_tool desc task with
    | None => (a, Ok false)
    | Some tool =>
        let r := new_tool_ref (ag_memory a) in
        let m0 := alloc_tool tool (ag_memory a) in
        match integrate py_str md5_hexdigest py_compile json_loads spawn timeout
                Integrator_default now_save r m0 (ag_engine a) with
        | (m1, log1, Raise e) =>
            ({| ag_state := ag_state a; ag_memory := m1; ag_engine := log1;
                ag_evo := ag_evo a |}, Raise e)
        | (m1, log1, Ok rep) =>
            if rep_ok rep then
              let st := ag_state a in
              let g := (st_generation st + 1)%Z in
              let nm := name (heap m1 !!! r) in
              ({| ag_state :=
                    {| st_session := st_session st; st_generation := g;
                       st_done := st_done st; st_failed := st_failed st;
                       st_tools := st_tools st ++ [nm] |};
                  ag_memory := m1; ag_engine := log1;
                  ag_evo := record g now_record task (name_value nm) (PStr desc)
                              (Some (rep_test_results rep)) None (ag_evo a) |},
               Ok true)
            else
              ({| ag_state := ag_state a; ag_memory := m1; ag_engine := log1;
                  ag_evo := ag_evo a |}, Ok false)
        end
    end.

End AgentOps.

(** The [tool_names] of [EvoAgent.status()]:
    [[t["name"] for t in self.memory.all_tools()]]. *)
Fixpoint tool_names (h : gmap loc Tool) (tools : list loc) : result (list string) :=
  match tools with
  | [] => Ok []
  | r :: tools' =>
      match name (h !!! r) with
      | None => Raise (KeyError "name")
      | Some n =>
          match tool_names h tools' with
          | Ok ns => Ok (n :: ns)
          | Raise e => Raise e
          end
      end
  end.

(** The [success_rate] of [status]: [done / max(1, done + failed)]. *)
Definition success_rate (st : AgentState) : Q :=
  rate_of (st_done st) (Nat.max 1 (st_done st + st_failed st)).

(** ** Scenarios

    Concrete tools, stores and environments on which the operations are
    run below. *)

Module Demo.

(** The double quote and the newline. *)
Definition dq : string := String (ascii_of_nat 34) "".
Definition nl : string := String (ascii_of_nat 10) "".
Definition quoted (s : string) : string := dq +:+ s +:+ dq.

(** The line the harness of [_build_runner] prints when the entry point
    returns the integer [n], returns [None], or raises with message [msg]. *)
Definition harness_ok (n : nat) : string :=
  "{" +:+ quoted "ok" +:+ ": true, " +:+ quoted "output" +:+ ": "
      +:+ pretty n +:+ "}" +:+ nl.

Definition harness_none : string :=
  "{" +:+ quoted "ok" +:+ ": true, " +:+ quoted "output" +:+ ": null}" +:+ nl.

Definition harness_error (msg : string) : string :=
  "{" +:+ quoted "ok" +:+ ": false, " +:+ quoted "output" +:+ ": null, "
      +:+ quoted "error" +:+ ": " +:+ quoted msg +:+ "}" +:+ nl.

(** [json.loads] on the texts that occur below; any other text that
    occurs below is not JSON. *)
Definition json_loads (s : string) : option pyval :=
  if String.eqb s (PyStr.strip (harness_ok 1)) then
    Some (PDict [("ok", PBool true); ("output", PInt 1)])
  else if String.eqb s (PyStr.strip (harness_ok 2)) then
    Some (PDict [("ok", PBool true); ("output", PInt 2)])
  else if String.eqb s (PyStr.strip harness_none) then
    Some (PDict [("ok", PBool true); ("output", PNone)])
  else if String.eqb s (PyStr.strip (harness_error "list index out of range")) then
    Some (PDict [("ok", PBool false); ("output", PNone);
                 ("error", PStr "list index out of range")])
  else if String.eqb s "42" then Some (PInt 42)
  else None.

(** [compile]: the one source below that does not parse. *)
Definition py_compile (c : string) : option string :=
  if String.eqb c "def f(:" then Some "invalid syntax (<generated>, line 1)"
  else None.

(** The source of the tool [pick]: it returns its argument for 1 and 2
    and raises [IndexError] on 3 and 4. *)
Definition pick_code : string := "def pick(x): return [1, 2][x - 1]".

(** The source of a procedure that returns nothing. *)
Definition touch_code : string := "def touch(): pass".

(** The child process on the sources above. *)
Definition spawn (log : list Runner) (script : Runner) : ProcOutcome :=
  if String.eqb (runner_code script) pick_code then
    match runner_kwargs script with
    | PDict [("x", PInt 1%Z)] => Exited (harness_ok 1) "" (1 # 10) (2 # 10)
    | PDict [("x", PInt 2%Z)] => Exited (harness_ok 2) "" (1 # 10) (2 # 10)
    | _ => Exited (harness_error "list index out of range") "" (1 # 10) (2 # 10)
    end
  else if String.eqb (runner_code script) touch_code then
    Exited harness_none "" (1 # 10) (2 # 10)
  else Exited "" "NameError" (1 # 10) (2 # 10).

Definition timeout : nat := 30.

(** [str(tool)] and MD5 are not run on the tools below that carry a
    name; for the one that does not, the digest is a fixed text. *)
Definition py_str (t : Tool) : string := default "" (description t).
Definition md5_hexdigest (s : string) : string := "9e107d9d372bb6826bd81d3542a419d6".

Definition case_x (n : Z) (label : string) : TestCase :=
  {| tc_input := Some (PDict [("x", PInt n)]);
     tc_expect_success := Some true;
     tc_label := Some label |}.

(** [pick] with four cases, two of which pass. *)
Definition pick_2_of_4 : Tool :=
  {| name := Some "pick"; func_name := Some "pick"; code := Some pick_code;
     description := Some "pick a number from a list";
     test_cases := Some [case_x 1 "one"; case_x 2 "two"; case_x 3 "three";
                         case_x 4 "four"];
     updated_at := None |}.

(** [pick] with four cases, three of which pass. *)
Definition pick_3_of_4 : Tool :=
  {| name := Some "pick"; func_name := Some "pick"; code := Some pick_code;
     description := Some "pick a number from a list";
     test_cases := Some [case_x 1 "one"; case_x 2 "two"; case_x 1 "again";
                         case_x 4 "four"];
     updated_at := None |}.

(** [pick] with two passing cases. *)
Definition pick_2_of_2 : Tool :=
  {| name := Some "pick"; func_name := Some "pick"; code := Some pick_code;
     description := Some "pick a number from a list, second version";
     test_cases := Some [case_x 1 "one"; case_x 2 "two"];
     updated_at := None |}.

(** A tool whose source does not parse. *)
Definition broken : Tool :=
  {| name := Some "broken"; func_name := Some "f"; code := Some "def f(:";
     description := None;
     test_cases := Some [case_x 1 "one"]; updated_at := None |}.

(** A tool dict with a name and nothing to run. *)
Definition no_code : Tool :=
  {| name := Some "sketch"; func_name := None; code := None;
     description := Some "not written yet"; test_cases := None;
     updated_at := None |}.

(** [pick] with no test case. *)
Definition pick_untested : Tool :=
  {| name := Some "pick"; func_name := Some "pick"; code := Some pick_code;
     description := Some "pick a number from a list"; test_cases := Some [];
     updated_at := None |}.

(** A tool dict without a name. *)
Definition anonymous : Tool :=
  {| name := None; func_name := Some "pick"; code := Some pick_code;
     description := Some "pick"; test_cases := None; updated_at := None |}.

(** The empty store with the objects [1 ↦ d1], [2 ↦ d2] in the heap. *)
Definition fresh (d1 d2 : Tool) : Memory :=
  {| heap := <[2%positive := d2]> (<[1%positive := d1]> ∅);
     _tools := []; tools_dir := ∅; archive_dir := ∅ |}.

(** Three tools that read tables. *)
Definition csv_parser : Tool :=
  {| name := Some "csv-parser"; func_name := Some "parse_csv"; code := None;
     description := Some "parse CSV files into rows"; test_cases := None;
     updated_at := None |}.

Definition csv_reader : Tool :=
  {| name := Some "csv-reader"; func_name := Some "read_csv"; code := None;
     description := Some "read csv rows"; test_cases := None;
     updated_at := None |}.

Definition csv_loader : Tool :=
  {| name := Some "csv-loader"; func_name := Some "load_csv"; code := None;
     description := Some "load csv rows"; test_cases := None;
     updated_at := None |}.

(** A store that holds [csv-parser]. *)
Definition stored_parser : Memory :=
  save_tool py_str md5_hexdigest "2024-01-01T00:00:00" 1%positive
    (fresh csv_parser csv_loader).

(** A store that holds [csv-reader], saved first, and [csv-loader], saved a
    day later. *)
Definition stored_readers : Memory :=
  save_tool py_str md5_hexdigest "2024-01-02T00:00:00" 2%positive
    (save_tool py_str md5_hexdigest "2024-01-01T00:00:00" 1%positive
       (fresh csv_reader csv_loader)).

(** A store that holds a first version of [pick] (object 1); object 2 is
    a second version, not stored. *)
Definition stored_pick : Memory :=
  save_tool py_str md5_hexdigest "2024-01-01T00:00:00" 1%positive
    (fresh pick_3_of_4 pick_2_of_2).

(** A store that holds [pick] (object 2); object 1 is a version that
    passes two of its four cases. *)
Definition stored_pick_weak : Memory :=
  save_tool py_str md5_hexdigest "2024-01-01T00:00:00" 2%positive
    (fresh pick_2_of_4 pick_3_of_4).

(** A tool whose name is no file name of the tools directory. *)
Definition io_read : Tool :=
  {| name := Some "io/read"; func_name := Some "read"; code := None;
     description := Some "read a file"; test_cases := None; updated_at := None |}.

(** A file system on which a file can be written unless its name has a
    ["/"] in it (there is no such directory), and every file can be
    removed. *)
Definition write_text (dir : Dir) (d : gmap string Tool) (f : string) (t : Tool)
    : WriteOutcome :=
  if PyStr.contains f "/"
  then WriteRaised (OSError ("[Errno 2] No such file or directory: " +:+ f)) d
  else Completed.

Definition unlink (d : gmap string Tool) (f : string) : WriteOutcome := Completed.

(** [pick] as the code writer may return it: without a name. *)
Definition unnamed_pick : Tool :=
  {| name := None; func_name := Some "pick"; code := Some pick_code;
     description := Some "pick a number from a list";
     test_cases := Some [case_x 1 "one"; case_x 2 "two"];
     updated_at := None |}.

(** A code writer that answers one description. *)
Definition write_tool (description context : string) : option Tool :=
  if String.eqb description "pick a number from a list" then Some unnamed_pick
  else None.

(** An agent that has run nothing yet, on the store that holds
    [csv-parser]. *)
Definition agent0 : Agent :=
  {| ag_state := {| st_session := "20240101_000000"; st_generation := 0;
                    st_done := 0; st_failed := 0; st_tools := [] |};
     ag_memory := stored_parser;
     ag_engine := [];
     ag_evo := {| history := []; history_file := None |} |}.

(** Three experiences and a log of at most two that is full. *)
Definition exp_csv : Experience :=
  {| exp_task := Some "analyze CSV file"; exp_success := Some true;
     exp_learned := Some ["CSV parsing works"]; exp_ts := None; exp_id := None |}.

Definition exp_json : Experience :=
  {| exp_task := Some "parse JSON response"; exp_success := Some true;
     exp_learned := Some []; exp_ts := None; exp_id := None |}.

Definition exp_plot : Experience :=
  {| exp_task := Some "plot CSV columns"; exp_success := Some false;
     exp_learned := None; exp_ts := None; exp_id := None |}.

Definition exp_str (e : Experience) : string := default "" (exp_task e).

Definition full_log : ExperienceLog :=
  {| _experiences := [exp_csv; exp_json]; max_experiences := 2; exp_file := None |}.

End Demo.

(** * Properties *)

(** ** Sanity checks of the string model *)

Example split_ex : PyStr.split "  parse a  CSV file " = ["parse"; "a"; "CSV"; "file"].
Proof. reflexivity. Qed.

Example strip_ex : PyStr.strip (String "010" " ok " +:+ String "010" "") = "ok".
Proof. reflexivity. Qed.

Example contains_ex : PyStr.contains "csv-parser parse csv files" "file" = true.
Proof. reflexivity. Qed.

Example lower_ex : PyStr.lower "Parse CSV" = "parse csv".
Proof. reflexivity. Qed.

(** ** Dicts *)

Lemma get_set_eq {V} k (v : V) d : PyDict.get k (PyDict.set k v d) = Some v.
Proof.
  induction d as [|[k' v'] d IH]; simpl.
  - rewrite String.eqb_refl. reflexivity.
  - destruct (String.eqb k k') eqn:E; simpl.
    + rewrite String.eqb_refl. reflexivity.
    + rewrite E. exact IH.
Qed.

Lemma get_set_ne {V} k k' (v : V) d :
  k <> k' -> PyDict.get k' (PyDict.set k v d) = PyDict.get k' d.
Proof.
  intros Hne. induction d as [|[k0 v0] d IH]; simpl.
  - destruct (String.eqb_spec k' k); [congruence|reflexivity].
  - destruct (String.eqb_spec k k0) as [->|Hk]; simpl.
    + destruct (String.eqb_spec k' k0); [congruence|reflexivity].
    + destruct (String.eqb_spec k' k0); [reflexivity|exact IH].
Qed.

Lemma in_set_inv {V} k (v : V) d k' v' :
  In (k', v') (PyDict.set k v d) -> (k' = k /\ v' = v) \/ In (k', v') d.
Proof.
  induction d as [|[k0 v0] d IH]; simpl.
  - intros [[= <- <-]|[]]. left. split; reflexivity.
  - destruct (String.eqb_spec k k0) as [->|Hk]; simpl.
    + intros [[= <- <-]|Hin]; [left; split; reflexivity|right; right; assumption].
    + intros [Heq|Hin]; [right; left; assumption|].
      destruct (IH Hin) as [?|?]; [left; assumption|right; right; assumption].
Qed.

Lemma in_remove_inv {V} k (d : list (string * V)) e :
  In e (PyDict.remove k d) -> In e d.
Proof.
  induction d as [|[k0 v0] d IH]; simpl; [tauto|].
  destruct (String.eqb k k0); simpl; [tauto|].
  intros [?|?]; [left; assumption|right; apply IH; assumption].
Qed.

Lemma get_in {V} k (v : V) d : PyDict.get k d = Some v -> In (k, v) d.
Proof.
  induction d as [|[k0 v0] d IH]; simpl; [discriminate|].
  destruct (String.eqb_spec k k0) as [->|Hk].
  - intros [= ->]. left. reflexivity.
  - intros H. right. apply IH. assumption.
Qed.

(** ** The Gate: syntax pre-check *)

Section GateFacts.

Variable py_compile : string -> option string.
Variable json_loads : string -> option pyval.
Variable spawn : list Runner -> Runner -> ProcOutcome.
Variable timeout : nat.

(** Every call of [run_code] spawns exactly one child. *)
Lemma run_code_log c fn kw log :
  fst (run_code json_loads spawn timeout c fn kw log)
  = log ++ [_build_runner c fn (if Py.truthy kw then kw else PDict [])].
Proof. reflexivity. Qed.

(** C8. When the static syntax pre-check of the candidate's source fails,
    [test_tool] returns a verdict with [passed = false], [pass_rate = 0.0],
    no result rows and the error text ["SyntaxError: ..."], and the engine
    log is the one it was called with: no child process was spawned. *)
Theorem syntax_error_short_circuits (tool : Tool) (log : list Runner) (msg : string) :
  py_compile (default "" (code tool)) = Some msg ->
  exists v,
    test_tool py_compile json_loads spawn timeout tool log = (log, Ok v)
    /\ passed v = false
    /\ pass_rate v = 0%Q
    /\ results v = []
    /\ error v = Some ("SyntaxError: " +:+ msg)
    /\ length (fst (test_tool py_compile json_loads spawn timeout tool log))
       = length log.
Proof.
  intros Hc. unfold test_tool, _syntax_check. rewrite Hc.
  eexists. repeat split; reflexivity.
Qed.

End GateFacts.

Lemma syntax_error_short_circuits_witness :
  Demo.py_compile (default "" (code Demo.broken))
    = Some "invalid syntax (<generated>, line 1)"
  /\ exists v,
    test_tool Demo.py_compile Demo.json_loads Demo.spawn Demo.timeout
      Demo.broken [] = ([], Ok v)
    /\ passed v = false
    /\ pass_rate v = 0%Q
    /\ results v = []
    /\ error v = Some ("SyntaxError: " +:+ "invalid syntax (<generated>, line 1)")
    /\ length (fst (test_tool Demo.py_compile Demo.json_loads Demo.spawn
                      Demo.timeout Demo.broken [])) = length (@nil Runner).
Proof.
  split; [reflexivity|].
  apply (syntax_error_short_circuits Demo.py_compile Demo.json_loads Demo.spawn
           Demo.timeout Demo.broken []).
  reflexivity.
Defined.

(** ** The Gate: how a case's outcome is read *)

(** The row [test_loop] appends for a case carries [actual_success] of the
    engine's result. *)
Lemma test_loop_single json_loads spawn timeout c fn tc log ok :
  PyDict.get "ok" (snd (run_code json_loads spawn timeout c fn
                          (default (PDict []) (tc_input tc)) log)) = Some ok ->
  exists row n log1,
    test_loop json_loads spawn timeout c fn [tc] [] 0 log = (log1, Ok ([row], n))
    /\ row_actual_success row
       = actual_success ok
           (snd (run_code json_loads spawn timeout c fn
                   (default (PDict []) (tc_input tc)) log))
           (default true (tc_expect_success tc)).
Proof.
  intros Hok. unfold test_loop.
  destruct (run_code json_loads spawn timeout c fn _ log) as [log1 r] eqn:Hr.
  cbn [snd] in Hok. rewrite Hok.
  eexists _, _, log1. split.
  - cbn [app]. reflexivity.
  - reflexivity.
Qed.

(** The rule of [actual_success], for an [ok] flag [b]: when [b] is false
    it is false; when [b] is true and the output is a dict it is the dict's
    ["success"] entry, or true when the dict has none; when [b] is true and
    the output is not a dict it is true if the output is not [None], and
    otherwise it is the negation of the case's [expect_success]. *)
Lemma actual_success_rule (b : bool) (r : list (string * pyval))
    (expect_ok : bool) :
  (b = false -> actual_success (PBool b) r expect_ok = PBool false)
  /\ (forall d v, b = true -> rget "output" r = PDict d ->
        PyDict.get "success" d = Some v ->
        actual_success (PBool b) r expect_ok = v)
  /\ (forall d, b = true -> rget "output" r = PDict d ->
        PyDict.get "success" d = None ->
        actual_success (PBool b) r expect_ok = PBool true)
  /\ (b = true -> Py.as_dict (rget "output" r) = None ->
        rget "output" r <> PNone ->
        actual_success (PBool b) r expect_ok = PBool true)
  /\ (b = true -> rget "output" r = PNone ->
        actual_success (PBool b) r expect_ok = PBool (negb expect_ok)).
Proof.
  unfold actual_success. repeat split.
  - intros ->. reflexivity.
  - intros d v -> Hout Hs. simpl. rewrite Hout. simpl. rewrite Hs. reflexivity.
  - intros d -> Hout Hs. simpl. rewrite Hout. simpl. rewrite Hs. reflexivity.
  - intros -> Hd Hn. simpl. rewrite Hd.
    destruct (rget "output" r); try reflexivity. congruence.
  - intros -> Hout. simpl. rewrite Hout. reflexivity.
Qed.

Example actual_success_rule_ex :
  let r := [("ok", PBool true);
            ("output", PDict [("success", PBool false); ("output", PStr "no such file")]);
            ("elapsed", PFloat (1 # 10))] in
  rget "output" r = PDict [("success", PBool false); ("output", PStr "no such file")]
  /\ PyDict.get "success" [("success", PBool false); ("output", PStr "no such file")]
     = Some (PBool false)
  /\ actual_success (PBool true) r true = PBool false.
Proof.
  intros r. split; [reflexivity|]. split; [reflexivity|].
  exact (proj1 (proj2 (actual_success_rule true r true))
           [("success", PBool false); ("output", PStr "no such file")]
           (PBool false) eq_refl eq_refl eq_refl).
Defined.

(** C4, as stated, fails: the procedure [touch] runs to its end and returns
    nothing, so the harness reports [ok = true] with output [None]; the
    output is not a mapping, and for a case that expects success
    [actual_success] is false, not true. *)
Lemma ok_without_output_is_failure :
  let r := snd (run_code Demo.json_loads Demo.spawn Demo.timeout
                  Demo.touch_code "touch" (PDict []) []) in
  PyDict.get "ok" r = Some (PBool true)
  /\ Py.as_dict (rget "output" r) = None
  /\ actual_success (PBool true) r true = PBool false
  /\ actual_success (PBool true) r true <> PBool true.
Proof. vm_compute. repeat split; congruence. Qed.

(** ** The engine: how a result is built *)

Section EngineFacts.

Variable json_loads : string -> option pyval.
Variable spawn : list Runner -> Runner -> ProcOutcome.
Variable timeout : nat.

(** A result dict built by [failure] or [raw_success] has its four keys. *)
Lemma failure_keys err elapsed :
  PyDict.get "ok" (failure err elapsed) = Some (PBool false)
  /\ PyDict.get "output" (failure err elapsed) = Some PNone
  /\ PyDict.get "error" (failure err elapsed) = Some (PStr err)
  /\ PyDict.get "elapsed" (failure err elapsed) = Some (PFloat elapsed).
Proof. repeat split. Qed.

(** Whatever the child does, the result of [_run] has an ["elapsed"]
    entry, a clock reading taken after the child was waited for. *)
Lemma run_result_has_elapsed o :
  exists q, PyDict.get "elapsed" (run_result json_loads timeout o) = Some (PFloat q).
Proof.
  destruct o as [out err e l|e|msg e]; simpl; eauto.
  destruct (PyStr.nonempty (PyStr.strip out)); [|eauto].
  destruct (json_loads _) as [data|]; [|eauto].
  destruct (Py.as_dict data) as [d|]; [|eauto].
  exists e. apply get_set_eq.
Qed.

Lemma run_code_has_elapsed c fn kw log :
  exists q,
    PyDict.get "elapsed" (snd (run_code json_loads spawn timeout c fn kw log))
    = Some (PFloat q).
Proof. apply run_result_has_elapsed. Qed.

(** C9 (amended). When the child exits and its standard output, with the
    surrounding white space stripped, is not empty and is not JSON
    ([json.loads] raises), the engine's result is [ok = true] with the
    stripped text as output, no error, and the measured elapsed time. *)
Theorem unparsable_stdout_is_success (c fn : string) (kw : pyval)
    (log : list Runner) (out err : string) (elapsed late : Q) :
  spawn log (_build_runner c fn (if Py.truthy kw then kw else PDict []))
    = Exited out err elapsed late ->
  PyStr.nonempty (PyStr.strip out) = true ->
  json_loads (PyStr.strip out) = None ->
  snd (run_code json_loads spawn timeout c fn kw log)
  = [("ok", PBool true); ("output", PStr (PyStr.strip out));
     ("elapsed", PFloat elapsed); ("error", PNone)].
Proof.
  intros Hs Hne Hj. unfold run_code, _run. cbn [snd].
  rewrite Hs. unfold run_result. rewrite Hne, Hj. reflexivity.
Qed.

(** C7, first half, on [run_tool]: a tool dict with no code, or no entry
    point, gets a result without an ["elapsed"] entry, and no child is
    run. *)
Theorem run_tool_missing_code_has_no_elapsed (tool : Tool) (task : string)
    (kw : pyval) (log : list Runner) :
  default "" (code tool) = "" \/ default "" (func_name tool) = "" ->
  run_tool json_loads spawn timeout tool task kw log
  = (log, [("ok", PBool false); ("output", PNone);
           ("error", PStr "tool missing code or func_name")])
  /\ PyDict.get "elapsed"
       (snd (run_tool json_loads spawn timeout tool task kw log)) = None.
Proof.
  intros H. unfold run_tool.
  assert (negb (PyStr.nonempty (default "" (code tool)))
          || negb (PyStr.nonempty (default "" (func_name tool))) = true) as ->.
  { destruct H as [-> | ->]; simpl; [reflexivity|apply orb_true_r]. }
  split; reflexivity.
Qed.

End EngineFacts.

Lemma unparsable_stdout_is_success_witness :
  let spawn := fun (_ : list Runner) (_ : Runner) =>
                 Exited ("<function f at 0x7f0a1c2d3e50>" +:+ Demo.nl) "" (1 # 10) (2 # 10) in
  spawn [] (_build_runner "def f(): print(f); raise SystemExit" "f" (PDict [])) 
    = Exited ("<function f at 0x7f0a1c2d3e50>" +:+ Demo.nl) "" (1 # 10) (2 # 10)
  /\ PyStr.nonempty (PyStr.strip ("<function f at 0x7f0a1c2d3e50>" +:+ Demo.nl)) = true
  /\ Demo.json_loads (PyStr.strip ("<function f at 0x7f0a1c2d3e50>" +:+ Demo.nl)) = None
  /\ snd (run_code Demo.json_loads spawn Demo.timeout "def f(): print(f); raise SystemExit" "f" PNone [])
     = [("ok", PBool true); ("output", PStr (PyStr.strip ("<function f at 0x7f0a1c2d3e50>" +:+ Demo.nl)));
        ("elapsed", PFloat (1 # 10)); ("error", PNone)].
Proof.
  intros spawn.
  split; [reflexivity|]. split; [reflexivity|]. split; [reflexivity|].
  apply (unparsable_stdout_is_success Demo.json_loads spawn Demo.timeout
           "def f(): print(f); raise SystemExit" "f" PNone [] ("<function f at 0x7f0a1c2d3e50>" +:+ Demo.nl) "" (1 # 10) (2 # 10));
    reflexivity.
Defined.

(** C9, as stated, fails: a child that writes only a newline has written a
    non-empty standard output that is no result envelope, and the engine
    reports [ok = false] with the error ["no output"]. *)
Lemma blank_stdout_is_failure :
  let spawn := fun (_ : list Runner) (_ : Runner) =>
                 Exited Demo.nl "" (1 # 10) (2 # 10) in
  Demo.nl <> ""
  /\ Demo.json_loads Demo.nl = None
  /\ snd (run_code Demo.json_loads spawn Demo.timeout "def f(): print(); raise SystemExit" "f" PNone [])
     = [("ok", PBool false); ("output", PNone); ("error", PStr "no output");
        ("elapsed", PFloat (1 # 10))].
Proof. intros spawn. split; [discriminate|]. split; reflexivity. Qed.

Lemma run_tool_missing_code_has_no_elapsed_witness :
  (default "" (code Demo.no_code) = "" \/ default "" (func_name Demo.no_code) = "")
  /\ run_tool Demo.json_loads Demo.spawn Demo.timeout Demo.no_code "sketch it" PNone []
     = ([], [("ok", PBool false); ("output", PNone);
             ("error", PStr "tool missing code or func_name")])
  /\ PyDict.get "elapsed"
       (snd (run_tool Demo.json_loads Demo.spawn Demo.timeout Demo.no_code
               "sketch it" PNone [])) = None.
Proof.
  split; [left; reflexivity|].
  apply (run_tool_missing_code_has_no_elapsed Demo.json_loads Demo.spawn
           Demo.timeout Demo.no_code "sketch it" PNone []).
  left; reflexivity.
Defined.

(** A child whose output is JSON but not an object is reported as a
    failure: [data["elapsed"] = elapsed] raises [TypeError], which the
    handler of [_run] turns into a result. *)
Lemma json_scalar_stdout_is_failure :
  let spawn := fun (_ : list Runner) (_ : Runner) =>
                 Exited ("42" +:+ Demo.nl) "" (1 # 10) (2 # 10) in
  Demo.json_loads (PyStr.strip ("42" +:+ Demo.nl)) = Some (PInt 42)
  /\ snd (run_code Demo.json_loads spawn Demo.timeout
            "def f(): print(42); raise SystemExit" "f" PNone [])
     = [("ok", PBool false); ("output", PNone);
        ("error", PStr "'int' object does not support item assignment");
        ("elapsed", PFloat (2 # 10))].
Proof. intros spawn. split; reflexivity. Qed.

(** ** The integrator *)

Section IntegratorFacts.

Variable py_str : Tool -> string.
Variable md5_hexdigest : string -> string.
Variable py_compile : string -> option string.
Variable json_loads : string -> option pyval.
Variable spawn : list Runner -> Runner -> ProcOutcome.
Variable timeout : nat.

(** A verdict that passed: the tool is saved, whether or not [integrate]
    then gets to return its report. *)
Lemma integrate_passed self now r m log log1 v :
  test_tool py_compile json_loads spawn timeout (heap m !!! r) log = (log1, Ok v) ->
  passed v = true ->
  fst (integrate py_str md5_hexdigest py_compile json_loads spawn timeout
         self now r m log)
  = (save_tool py_str md5_hexdigest now r m, log1).
Proof.
  intros Ht Hp. unfold integrate. rewrite Ht, Hp.
  destruct (passed_count v), (total_count v); reflexivity.
Qed.

(** C2. When the verdict of [test_tool] on the candidate is not passed,
    [integrate] returns a report with [ok = false] and the memory it was
    called with: the index, every tool dict, the tool files and the archive
    are the same, so [get_tool] answers as before, with the same content. *)
Theorem rejected_candidate_leaves_store (self : Integrator) (now : string)
    (r : loc) (m : Memory) (log log1 : list Runner) (v : Verdict) :
  test_tool py_compile json_loads spawn timeout (heap m !!! r) log = (log1, Ok v) ->
  passed v = false ->
  exists rep m',
    integrate py_str md5_hexdigest py_compile json_loads spawn timeout
      self now r m log = (m', log1, Ok rep)
    /\ rep_ok rep = false
    /\ m' = m
    /\ _tools m' = _tools m
    /\ (forall nm, get_tool nm m' = get_tool nm m)
    /\ (forall nm old, get_tool nm m = Some old -> heap m' !!! old = heap m !!! old).
Proof.
  intros Ht Hp. unfold integrate. rewrite Ht, Hp.
  eexists _, m. repeat split; reflexivity.
Qed.

(** When [test_tool] raises, [integrate] raises with the memory it was
    called with. *)
Lemma integrate_raise_leaves_store self now r m log log1 e :
  test_tool py_compile json_loads spawn timeout (heap m !!! r) log = (log1, Raise e) ->
  integrate py_str md5_hexdigest py_compile json_loads spawn timeout
    self now r m log = (m, log1, Raise e).
Proof. intros Ht. unfold integrate. rewrite Ht. reflexivity. Qed.

(** The decision of [integrate] does not read [self.threshold]. *)
Lemma integrate_ignores_threshold self1 self2 now r m log :
  integrate py_str md5_hexdigest py_compile json_loads spawn timeout
    self1 now r m log
  = integrate py_str md5_hexdigest py_compile json_loads spawn timeout
      self2 now r m log.
Proof. reflexivity. Qed.

(** [save_tool] on a dict that carries its name and was stamped: only
    the stamp changes. *)
Lemma set_name_same nm t : name t = Some nm -> set_name nm t = t.
Proof. destruct t; simpl; intros ->; reflexivity. Qed.

Lemma save_tool_content now r m :
  heap (save_tool py_str md5_hexdigest now r m) !!! r
  = set_updated_at now
      (set_name (default ("tool_" +:+ _short_hash md5_hexdigest (py_str (heap m !!! r)))
                   (name (heap m !!! r)))
         (heap m !!! r)).
Proof. unfold save_tool. cbn [heap]. apply lookup_total_insert_eq. Qed.

(** Whatever the candidate and the store: when the verdict is passed,
    [integrate] saves the candidate under its name and stamps it, and the
    archive is not written: it is the archive [integrate] was called with.
    Integrating the same dict once more, again with a passed verdict,
    leaves the archive as it was before the first call, and [get_tool]
    returns the candidate after either call, the same dict with only
    [updated_at] stamped anew. *)
Lemma passing_candidate_saved_not_archived (self : Integrator)
    (now1 now2 : string) (r : loc) (m : Memory)
    (log log1 log2 : list Runner) (v1 v2 : Verdict) :
  let run := integrate py_str md5_hexdigest py_compile json_loads spawn timeout self in
  let nm := default ("tool_" +:+ _short_hash md5_hexdigest (py_str (heap m !!! r)))
              (name (heap m !!! r)) in
  let m1 := fst (fst (run now1 r m log)) in
  let m2 := fst (fst (run now2 r m1 log1)) in
  test_tool py_compile json_loads spawn timeout (heap m !!! r) log = (log1, Ok v1) ->
  passed v1 = true ->
  test_tool py_compile json_loads spawn timeout (heap m1 !!! r) log1 = (log2, Ok v2) ->
  passed v2 = true ->
  archive_dir m1 = archive_dir m
  /\ get_tool nm m1 = Some r
  /\ heap m1 !!! r = set_updated_at now1 (set_name nm (heap m !!! r))
  /\ archive_dir m2 = archive_dir m
  /\ get_tool nm m2 = Some r
  /\ heap m2 !!! r = set_updated_at now2 (heap m1 !!! r).
Proof.
  intros run nm m1 m2 Ht1 Hp1 Ht2 Hp2.
  assert (Hm1 : m1 = save_tool py_str md5_hexdigest now1 r m).
  { unfold m1, run. rewrite (integrate_passed _ _ _ _ _ _ _ Ht1 Hp1). reflexivity. }
  assert (Hm2 : m2 = save_tool py_str md5_hexdigest now2 r m1).
  { unfold m2, run. rewrite (integrate_passed _ _ _ _ _ _ _ Ht2 Hp2). reflexivity. }
  assert (Hc1 : heap m1 !!! r = set_updated_at now1 (set_name nm (heap m !!! r))).
  { rewrite Hm1. apply save_tool_content. }
  assert (Hn1 : name (heap m1 !!! r) = Some nm) by (rewrite Hc1; reflexivity).
  split; [rewrite Hm1; reflexivity|].
  split; [rewrite Hm1; apply get_set_eq|].
  split; [exact Hc1|].
  split; [rewrite Hm2, Hm1; reflexivity|].
  split.
  - rewrite Hm2. unfold get_tool, save_tool. cbn [_tools].
    rewrite Hn1. cbn [from_option id]. apply get_set_eq.
  - rewrite Hm2, save_tool_content, Hn1. cbn [from_option id].
    rewrite (set_name_same _ _ Hn1). reflexivity.
Qed.

End IntegratorFacts.

(** C2 at a store that holds [pick]: a second version that passes two of
    its four cases is turned down and the store is as before. *)
Lemma rejected_candidate_leaves_store_witness :
  exists log1 v,
    test_tool Demo.py_compile Demo.json_loads Demo.spawn Demo.timeout
      (heap Demo.stored_pick_weak !!! 1%positive) [] = (log1, Ok v)
    /\ passed v = false
    /\ exists rep m',
         integrate Demo.py_str Demo.md5_hexdigest Demo.py_compile Demo.json_loads
           Demo.spawn Demo.timeout Integrator_default "2024-01-02T00:00:00"
           1%positive Demo.stored_pick_weak [] = (m', log1, Ok rep)
         /\ rep_ok rep = false
         /\ m' = Demo.stored_pick_weak
         /\ _tools m' = _tools Demo.stored_pick_weak
         /\ (forall nm, get_tool nm m' = get_tool nm Demo.stored_pick_weak)
         /\ (forall nm old, get_tool nm Demo.stored_pick_weak = Some old ->
               heap m' !!! old = heap Demo.stored_pick_weak !!! old).
Proof.
  eexists _, _.
  split; [vm_compute; reflexivity|].
  split; [reflexivity|].
  eapply (rejected_candidate_leaves_store Demo.py_str Demo.md5_hexdigest
            Demo.py_compile Demo.json_loads Demo.spawn Demo.timeout
            Integrator_default "2024-01-02T00:00:00" 1%positive
            Demo.stored_pick_weak []).
  - vm_compute. reflexivity.
  - reflexivity.
Defined.

Example passing_candidate_saved_not_archived_ex :
  let run := integrate Demo.py_str Demo.md5_hexdigest Demo.py_compile Demo.json_loads
               Demo.spawn Demo.timeout Integrator_default in
  let nm := default ("tool_" +:+ _short_hash Demo.md5_hexdigest
                        (Demo.py_str (heap Demo.stored_pick !!! 2%positive)))
              (name (heap Demo.stored_pick !!! 2%positive)) in
  let m1 := fst (fst (run "2024-01-02T00:00:00" 2%positive Demo.stored_pick [])) in
  let m2 := fst (fst (run "2024-01-03T00:00:00" 2%positive m1
                        [_build_runner Demo.pick_code "pick" (PDict [("x", PInt 1)]);
                         _build_runner Demo.pick_code "pick" (PDict [("x", PInt 2)])])) in
  nm = "pick"
  /\ archive_dir m1 = archive_dir Demo.stored_pick
  /\ get_tool nm m1 = Some 2%positive
  /\ heap m1 !!! 2%positive
     = set_updated_at "2024-01-02T00:00:00"
         (set_name nm (heap Demo.stored_pick !!! 2%positive))
  /\ archive_dir m2 = archive_dir Demo.stored_pick
  /\ get_tool nm m2 = Some 2%positive
  /\ heap m2 !!! 2%positive = set_updated_at "2024-01-03T00:00:00" (heap m1 !!! 2%positive).
Proof.
  cbv zeta. split; [reflexivity|].
  eapply (passing_candidate_saved_not_archived Demo.py_str Demo.md5_hexdigest
            Demo.py_compile Demo.json_loads Demo.spawn Demo.timeout
            Integrator_default "2024-01-02T00:00:00" "2024-01-03T00:00:00"
            2%positive Demo.stored_pick []).
  - vm_compute. reflexivity.
  - reflexivity.
  - vm_compute. reflexivity.
  - reflexivity.
Defined.

(** C1 at a store that holds a first version of [pick]: a second version
    passes its tests and is integrated, twice. The second version replaces
    the first, and the archive is empty after either call: no archive entry
    was made, and the first version is in neither the store nor the
    archive. *)
Theorem integrate_replaces_without_archive :
  let run := integrate Demo.py_str Demo.md5_hexdigest Demo.py_compile Demo.json_loads
               Demo.spawn Demo.timeout Integrator_default in
  let out1 := run "2024-01-02T00:00:00" 2%positive Demo.stored_pick [] in
  let m1 := fst (fst out1) in
  let out2 := run "2024-01-03T00:00:00" 2%positive m1 (snd (fst out1)) in
  let m2 := fst (fst out2) in
  get_tool "pick" Demo.stored_pick = Some 1%positive
  /\ heap Demo.stored_pick !!! 1%positive <> heap Demo.stored_pick !!! 2%positive
  /\ archive_dir Demo.stored_pick = ∅
  /\ (exists rep, snd out1 = Ok rep /\ rep_ok rep = true)
  /\ get_tool "pick" m1 = Some 2%positive
  /\ all_tools m1 = [2%positive]
  /\ archive_dir m1 = ∅
  /\ (exists rep, snd out2 = Ok rep /\ rep_ok rep = true)
  /\ get_tool "pick" m2 = Some 2%positive
  /\ all_tools m2 = [2%positive]
  /\ archive_dir m2 = ∅
  /\ size (archive_dir m2) <> 2.
Proof.
  cbv zeta.
  split; [vm_compute; reflexivity|].
  split; [vm_compute; discriminate|].
  split; [vm_compute; reflexivity|].
  split; [eexists; split; [vm_compute; reflexivity|reflexivity]|].
  split; [vm_compute; reflexivity|].
  split; [vm_compute; reflexivity|].
  split; [vm_compute; reflexivity|].
  split; [eexists; split; [vm_compute; reflexivity|reflexivity]|].
  split; [vm_compute; reflexivity|].
  split; [vm_compute; reflexivity|].
  split; [vm_compute; reflexivity|].
  vm_compute. discriminate.
Qed.

(** ** The Gate: the verdict *)

Section VerdictFacts.

Variable py_compile : string -> option string.
Variable json_loads : string -> option pyval.
Variable spawn : list Runner -> Runner -> ProcOutcome.
Variable timeout : nat.

Lemma hits_app rows1 rows2 : hits (rows1 ++ rows2) = (hits rows1 + hits rows2)%nat.
Proof. unfold hits. rewrite List.filter_app, length_app. reflexivity. Qed.

(** When the loop over the cases returns, it has appended one row per
    case and counted the rows that passed. *)
Lemma test_loop_counts c fn tcs : forall rows n log log1 rows1 n1,
  test_loop json_loads spawn timeout c fn tcs rows n log = (log1, Ok (rows1, n1)) ->
  length rows1 = (length rows + length tcs)%nat
  /\ (n = hits rows -> n1 = hits rows1)
  /\ length log1 = (length log + length tcs)%nat.
Proof.
  induction tcs as [|tc tcs IH]; intros rows n log log1 rows1 n1; cbn [test_loop].
  - intros [= <- <- <-]. cbn [length]. repeat split; try lia.
  - destruct (run_code _ _ _ _ _ _ log) as [log' r] eqn:Hr.
    destruct (PyDict.get "ok" r) as [ok|]; [|discriminate].
    intros H. apply IH in H. destruct H as (Hl & Hn & Hg).
    assert (Hlog : length log' = S (length log)).
    { pose proof (run_code_log json_loads spawn timeout c fn
                    (default (PDict []) (tc_input tc)) log) as E.
      rewrite Hr in E. cbn [fst] in E. rewrite E, length_app. cbn [length]. lia. }
    rewrite length_app in Hl. cbn [length] in *.
    split; [lia|]. split; [|lia].
    intros ->. apply Hn. rewrite hits_app. unfold hits. cbn [List.filter row_passed].
    destruct (Py.eq_bool _ _); cbn [length]; lia.
Qed.

(** With valid syntax and at least one case, the verdict of [test_tool] is
    computed from the loop's count: the rate is [passed / total] and the
    verdict passes when the rate reaches the literal 0.75. *)
Lemma test_tool_verdict tool log log1 rows n :
  py_compile (default "" (code tool)) = None ->
  default [] (test_cases tool) <> [] ->
  test_loop json_loads spawn timeout (default "" (code tool))
    (default "" (func_name tool)) (default [] (test_cases tool)) [] 0 log
    = (log1, Ok (rows, n)) ->
  test_tool py_compile json_loads spawn timeout tool log
  = (log1,
     Ok {| passed := Qle_bool (3 # 4) (rate_of n (length (default [] (test_cases tool))));
           pass_rate := rate_of n (length (default [] (test_cases tool)));
           passed_count := Some n;
           total_count := Some (length (default [] (test_cases tool)));
           results := rows;
           error := None |})
  /\ n = hits rows
  /\ length rows = length (default [] (test_cases tool)).
Proof.
  intros Hc Hne Hl. unfold test_tool, _syntax_check. rewrite Hc.
  destruct (default [] (test_cases tool)) as [|tc tcs] eqn:Etcs; [congruence|].
  rewrite Hl. split; [reflexivity|].
  apply test_loop_counts in Hl. destruct Hl as (Hlen & Hn & _).
  split; [apply Hn; reflexivity|exact Hlen].
Qed.

(** The comparison with 0.75, on the counts. *)
Lemma rate_reaches_three_quarters n total :
  (0 < total)%nat ->
  Qle_bool (3 # 4) (rate_of n total) = (3 * total <=? 4 * n)%nat.
Proof.
  intros Hpos. unfold rate_of, Qle_bool. cbn [Qnum Qden].
  assert (E : Z.pos (Pos.of_nat total) = Z.of_nat total).
  { rewrite <- positive_nat_Z, Nat2Pos.id by lia. reflexivity. }
  rewrite E. apply eq_true_iff_eq. rewrite Z.leb_le, Nat.leb_le. lia.
Qed.

End VerdictFacts.

(** The boundary at the literal 0.75: three of four cases pass the Gate,
    two of four do not. *)
Example three_of_four_accepted :
  exists log1 v,
    test_tool Demo.py_compile Demo.json_loads Demo.spawn Demo.timeout
      Demo.pick_3_of_4 [] = (log1, Ok v)
    /\ passed_count v = Some 3 /\ total_count v = Some 4 /\ passed v = true.
Proof. eexists _, _. split; [vm_compute; reflexivity|]. repeat split. Qed.

Example two_of_four_rejected :
  exists log1 v,
    test_tool Demo.py_compile Demo.json_loads Demo.spawn Demo.timeout
      Demo.pick_2_of_4 [] = (log1, Ok v)
    /\ passed_count v = Some 2 /\ total_count v = Some 4 /\ passed v = false.
Proof. eexists _, _. split; [vm_compute; reflexivity|]. repeat split. Qed.

(** C3 at a configured threshold: an integrator built with
    [pass_threshold = 0.5] tests a candidate that passes two of its four
    cases. The rate is 2/4, which reaches the configured threshold, yet
    the verdict is not passed and the candidate is not integrated: the
    verdict compares the rate with the literal 0.75. *)
Theorem configured_threshold_not_applied :
  let self := {| threshold := 1 # 2 |} in
  let m := Demo.fresh Demo.pick_2_of_4 Demo.pick_3_of_4 in
  exists log1 v rep,
    test_tool Demo.py_compile Demo.json_loads Demo.spawn Demo.timeout
      (heap m !!! 1%positive) [] = (log1, Ok v)
    /\ passed_count v = Some 2
    /\ total_count v = Some 4
    /\ pass_rate v = (2 # 4)%Q
    /\ Qle_bool (threshold self) (pass_rate v) = true
    /\ passed v = false
    /\ integrate Demo.py_str Demo.md5_hexdigest Demo.py_compile Demo.json_loads
         Demo.spawn Demo.timeout self "2024-01-01T00:00:00" 1%positive m []
       = (m, log1, Ok rep)
    /\ rep_ok rep = false
    /\ get_tool "pick" m = None.
Proof.
  cbv zeta. eexists _, _, _.
  split; [vm_compute; reflexivity|].
  do 5 (split; [reflexivity|]).
  split; [vm_compute; reflexivity|].
  split; reflexivity.
Qed.

(** ** Upgrade: the path that archives *)

(** [upgrade] archives the dict stored under [tool_name], when there is
    one and it is not empty, and then integrates the new tool on the
    resulting memory. *)
Lemma upgrade_archives_then_integrates py_str md5_hexdigest py_compile json_loads
    spawn timeout self stamp now tool_name r m log old :
  get_tool tool_name m = Some old ->
  tool_truthy (heap m !!! old) = true ->
  upgrade py_str md5_hexdigest py_compile json_loads spawn timeout
    self stamp now tool_name r m log
  = integrate py_str md5_hexdigest py_compile json_loads spawn timeout self now r
      (archive_tool stamp (heap m !!! old) m) log
  /\ archive_dir (archive_tool stamp (heap m !!! old) m)
       !! (default "unknown" (name (heap m !!! old)) +:+ "_" +:+ stamp +:+ ".json")
     = Some (heap m !!! old).
Proof.
  intros Hg Ht. unfold upgrade. rewrite Hg, Ht. split; [reflexivity|].
  unfold archive_tool. cbn [archive_dir]. apply lookup_insert_eq.
Qed.

(** ** The relevance selector *)

Section SelectorFacts.

Variable h : gmap loc Tool.
Variable words : list string.

(** The score of the dict behind a reference. *)
Let sc (r : loc) : nat := score words (h !!! r).

(** What the loop of [best_tool_for] leaves in [(best, best_score)]:
    either no tool beat the score it started with, or the answer is the
    first tool, in iteration order, whose score is the largest. *)
Lemma best_loop_first_max tools : forall best bs,
  let res := best_loop h words tools best bs in
  (res = (best, bs) /\ forall r, In r tools -> sc r <= bs)
  \/ (exists pre r post,
        tools = pre ++ r :: post
        /\ res = (Some r, sc r)
        /\ bs < sc r
        /\ (forall r', In r' pre -> sc r' < sc r)
        /\ (forall r', In r' post -> sc r' <= sc r)).
Proof.
  induction tools as [|r0 tools IH]; intros best bs; cbn [best_loop].
  - left. split; [reflexivity|]. intros r [].
  - fold (sc r0). destruct (Nat.ltb_spec bs (sc r0)) as [Hlt|Hge].
    + right. destruct (IH (Some r0) (sc r0)) as [[Hres Hall]|(pre & r & post & -> & Hres & Hlt' & Hpre & Hpost)].
      * exists [], r0, tools. cbn [app]. repeat split; try assumption.
        intros r' [].
      * exists (r0 :: pre), r, post. cbn [app]. repeat split; try assumption.
        -- lia.
        -- intros r' [<-|Hin]; [assumption|apply Hpre; assumption].
    + destruct (IH best bs) as [[Hres Hall]|(pre & r & post & -> & Hres & Hlt' & Hpre & Hpost)].
      * left. split; [assumption|]. intros r [<-|Hin]; [assumption|apply Hall; assumption].
      * right. exists (r0 :: pre), r, post. cbn [app]. repeat split; try assumption.
        intros r' [<-|Hin]; [lia|apply Hpre; assumption].
Qed.

End SelectorFacts.

(** The set of the task's words and the list of its distinct words give
    the same count. *)
Lemma score_counts_set_of_words task t :
  score (task_words task) t
  = size (filter (fun w => PyStr.contains (tool_text t) w = true) (spec_tokens task)).
Proof.
  unfold score, task_words, spec_tokens.
  set (l := PyStr.split (PyStr.lower task)).
  set (P := fun w => PyStr.contains (tool_text t) w = true).
  assert (E : filter P (list_to_set l : gset string)
              = list_to_set (filter P (remove_dups l))).
  { apply set_eq. intros w.
    rewrite elem_of_filter, !elem_of_list_to_set, list_elem_of_filter, elem_of_remove_dups.
    reflexivity. }
  rewrite E, size_list_to_set; [reflexivity|].
  apply NoDup_filter, NoDup_remove_dups.
Qed.

(** C5 (amended). [best_tool_for] lowercases the task text and splits it
    into its set of words, scores every stored tool by the number of those
    words that occur as substrings of the lowercased text "name
    description", and returns a stored tool of maximal score when that
    score is at least 2, and nothing when no stored tool scores 2. *)
Theorem best_tool_for_max_substring_score (task : string) (m : Memory) :
  let sc := fun r =>
    size (filter (fun w => PyStr.contains (tool_text (heap m !!! r)) w = true)
            (spec_tokens task)) in
  match best_tool_for task m with
  | Some r =>
      In r (all_tools m)
      /\ 2 <= sc r
      /\ forall r', In r' (all_tools m) -> sc r' <= sc r
  | None => forall r', In r' (all_tools m) -> sc r' < 2
  end.
Proof.
  intros sc. unfold best_tool_for.
  pose proof (best_loop_first_max (heap m) (task_words task) (all_tools m) None 0) as H.
  cbv zeta in H.
  assert (Esc : forall r, score (task_words task) (heap m !!! r) = sc r)
    by (intros r; apply score_counts_set_of_words).
  destruct H as [[-> Hall]|(pre & r & post & Htools & -> & Hpos & Hpre & Hpost)].
  - cbn [Nat.leb]. intros r' Hin. specialize (Hall r' Hin). rewrite Esc in Hall. lia.
  - rewrite !Esc in *. setoid_rewrite Esc in Hpre. setoid_rewrite Esc in Hpost.
    destruct (Nat.leb_spec 2 (sc r)) as [Hge|Hlt].
    + split; [rewrite Htools; apply in_or_app; right; left; reflexivity|].
      split; [assumption|].
      intros r' Hin. rewrite Htools in Hin.
      apply in_app_or in Hin. destruct Hin as [Hin|[<-|Hin]].
      * specialize (Hpre r' Hin). lia.
      * lia.
      * apply Hpost; assumption.
    + intros r' Hin. rewrite Htools in Hin.
      apply in_app_or in Hin. destruct Hin as [Hin|[<-|Hin]].
      * specialize (Hpre r' Hin). lia.
      * assumption.
      * specialize (Hpost r' Hin). lia.
Qed.

(** C5, as stated, fails: for the task "open a file" the stored
    [csv-parser] shares no word with the task, so the score of the
    specification is 0 and its answer is nothing; [best_tool_for] counts
    "a" and "file", which occur inside "parse" and "files", and returns
    the tool. *)
Lemma substring_match_is_not_word_match :
  best_tool_for "open a file" Demo.stored_parser = Some 1%positive
  /\ spec_score "open a file" (heap Demo.stored_parser !!! 1%positive) = 0
  /\ ~ spec_best_match "open a file" Demo.stored_parser
         (best_tool_for "open a file" Demo.stored_parser).
Proof.
  assert (E : best_tool_for "open a file" Demo.stored_parser = Some 1%positive)
    by (vm_compute; reflexivity).
  assert (S0 : spec_score "open a file" (heap Demo.stored_parser !!! 1%positive) = 0)
    by (vm_compute; reflexivity).
  split; [exact E|]. split; [exact S0|].
  rewrite E. cbn [spec_best_match]. intros (_ & H2 & _). rewrite S0 in H2. lia.
Qed.

(** When [best_tool_for] returns a tool, it is the first tool of maximal
    score in the iteration order of the store: every tool before it scores
    strictly less, every tool after it scores at most as much. *)
Lemma best_tool_for_answer_is_first_max (task : string) (m : Memory) (r : loc) :
  best_tool_for task m = Some r ->
  let sc := fun r' => score (task_words task) (heap m !!! r') in
  exists pre post,
    all_tools m = pre ++ r :: post
    /\ 2 <= sc r
    /\ (forall r', In r' pre -> sc r' < sc r)
    /\ (forall r', In r' post -> sc r' <= sc r).
Proof.
  intros Hb. cbv zeta. unfold best_tool_for in Hb.
  pose proof (best_loop_first_max (heap m) (task_words task) (all_tools m) None 0) as H.
  cbv zeta in H.
  destruct H as [[E _]|(pre & r1 & post & Htools & E & Hpos & Hpre & Hpost)];
    rewrite E in Hb.
  - cbn [Nat.leb] in Hb. discriminate.
  - destruct (Nat.leb_spec 2 (score (task_words task) (heap m !!! r1))) as [Hge|Hlt];
      [|discriminate].
    injection Hb as <-. exists pre, post. repeat split; assumption.
Qed.

Example best_tool_for_answer_is_first_max_ex :
  best_tool_for "CSV rows" Demo.stored_readers = Some 1%positive
  /\ let sc := fun r' => score (task_words "CSV rows") (heap Demo.stored_readers !!! r') in
     exists pre post,
       all_tools Demo.stored_readers = pre ++ 1%positive :: post
       /\ 2 <= sc 1%positive
       /\ (forall r', In r' pre -> sc r' < sc 1%positive)
       /\ (forall r', In r' post -> sc r' <= sc 1%positive).
Proof.
  split; [vm_compute; reflexivity|].
  apply (best_tool_for_answer_is_first_max "CSV rows" Demo.stored_readers 1%positive).
  vm_compute; reflexivity.
Defined.

(** C6, as stated, fails: [csv-reader] and [csv-loader] both score 2 for
    the task "CSV rows", the maximum; [csv-loader] was updated a day after
    [csv-reader]; [best_tool_for] returns [csv-reader]. *)
Lemma tie_goes_to_the_first_stored :
  let sc := fun r => score (task_words "CSV rows") (heap Demo.stored_readers !!! r) in
  all_tools Demo.stored_readers = [1%positive; 2%positive]
  /\ sc 1%positive = 2 /\ sc 2%positive = 2
  /\ updated_at (heap Demo.stored_readers !!! 1%positive) = Some "2024-01-01T00:00:00"
  /\ updated_at (heap Demo.stored_readers !!! 2%positive) = Some "2024-01-02T00:00:00"
  /\ String.ltb "2024-01-01T00:00:00" "2024-01-02T00:00:00" = true
  /\ best_tool_for "CSV rows" Demo.stored_readers = Some 1%positive
  /\ best_tool_for "CSV rows" Demo.stored_readers <> Some 2%positive.
Proof.
  cbv zeta. repeat split; try (vm_compute; reflexivity).
  vm_compute. discriminate.
Qed.

(** ** The store: keys and names *)

Section StoreFacts.

Variable py_str : Tool -> string.
Variable md5_hexdigest : string -> string.

Lemma saved_name_default t :
  default ("tool_" +:+ _short_hash md5_hexdigest (py_str t)) (name t)
  = saved_name py_str md5_hexdigest t.
Proof. unfold saved_name, _short_hash. destruct (name t); reflexivity. Qed.

Lemma save_tool_keeps_keys now r m :
  keys_are_names m -> keys_are_names (save_tool py_str md5_hexdigest now r m).
Proof.
  intros Hinv k r' Hin. unfold save_tool in *. cbn [_tools heap] in *.
  apply in_set_inv in Hin. destruct Hin as [[-> ->]|Hin].
  - rewrite lookup_total_insert_eq. reflexivity.
  - specialize (Hinv k r' Hin).
    destruct (decide (r = r')) as [<-|Hne].
    + rewrite lookup_total_insert_eq. cbn [set_updated_at set_name name].
      rewrite Hinv. reflexivity.
    + rewrite lookup_total_insert_ne by assumption. exact Hinv.
Qed.

Lemma archive_tool_keeps_keys stamp t m :
  keys_are_names m -> keys_are_names (archive_tool stamp t m).
Proof. intros Hinv k r Hin. exact (Hinv k r Hin). Qed.

Lemma delete_tool_keeps_keys stamp nm m :
  keys_are_names m -> keys_are_names (delete_tool stamp nm m).
Proof.
  intros Hinv. unfold delete_tool.
  destruct (PyDict.get nm (_tools m)) as [r|]; [|exact Hinv].
  intros k r' Hin. cbn [_tools heap archive_tool] in *.
  apply in_remove_inv in Hin. exact (Hinv k r' Hin).
Qed.

(** [save_tool] when the write completes: the dict is filed under its
    name (the name it carries, or the one made from the digest of its
    text), stamped, otherwise unchanged, and found by [get_tool]; the
    changes of state of the first layer keep every key of the index the
    name of its dict. *)
Lemma save_tool_written (now : string) (r : loc) (m : Memory) :
  let t := heap m !!! r in
  let m' := save_tool py_str md5_hexdigest now r m in
  let t' := heap m' !!! r in
  (forall n, name t = Some n -> saved_name py_str md5_hexdigest t = n)
  /\ (name t = None ->
        saved_name py_str md5_hexdigest t = "tool_" +:+ PyStr.take 10 (md5_hexdigest (py_str t)))
  /\ name t' = Some (saved_name py_str md5_hexdigest t)
  /\ updated_at t' = Some now
  /\ (func_name t', code t', description t', test_cases t')
     = (func_name t, code t, description t, test_cases t)
  /\ get_tool (saved_name py_str md5_hexdigest t) m' = Some r
  /\ tools_dir m' !! (saved_name py_str md5_hexdigest t +:+ ".json") = Some t'
  /\ (keys_are_names m ->
        forall op, keys_are_names (apply_op py_str md5_hexdigest op m)).
Proof.
  cbv zeta.
  assert (Ht' : heap (save_tool py_str md5_hexdigest now r m) !!! r
                = set_updated_at now (set_name (saved_name py_str md5_hexdigest (heap m !!! r)) (heap m !!! r))).
  { rewrite save_tool_content, saved_name_default. reflexivity. }
  split; [intros n Hn; unfold saved_name; rewrite Hn; reflexivity|].
  split; [intros Hn; unfold saved_name; rewrite Hn; reflexivity|].
  rewrite Ht'. cbn [set_updated_at set_name name updated_at func_name code
                     description test_cases].
  do 3 (split; [reflexivity|]).
  split; [unfold get_tool, save_tool; cbn [_tools];
          rewrite saved_name_default; apply get_set_eq|].
  split; [unfold save_tool; cbn [tools_dir]; rewrite saved_name_default;
          apply lookup_insert_eq|].
  intros Hinv [now' r'|stamp t|stamp nm]; cbn [apply_op].
  - apply save_tool_keeps_keys; assumption.
  - apply archive_tool_keeps_keys; assumption.
  - apply delete_tool_keeps_keys; assumption.
Qed.

(** Loading: when every file that parses holds a dict with a name, the
    index [_load_tools] builds has every key the name of its dict. *)
Lemma load_tools_keys files : forall next h tools,
  (forall stem t, In (stem, Some t) files -> name t <> None) ->
  (forall k r, In (k, r) tools -> (r < next)%positive /\ name (h !!! r) = Some k) ->
  forall k r, In (k, r) (snd (_load_tools files next h tools)) ->
    name (fst (_load_tools files next h tools) !!! r) = Some k.
Proof.
  induction files as [|[stem [t|]] files IH]; intros next h tools Hnamed Hinv;
    cbn [_load_tools fst snd].
  - intros k r Hin. apply Hinv; assumption.
  - apply IH.
    + intros stem' t' Hin. apply (Hnamed stem' t'). right; assumption.
    + intros k r Hin. apply in_set_inv in Hin. destruct Hin as [[-> ->]|Hin].
      * split; [lia|]. rewrite lookup_total_insert_eq.
        destruct (name t) as [n|] eqn:En; [reflexivity|].
        exfalso. apply (Hnamed stem t); [left; reflexivity|assumption].
      * destruct (Hinv k r Hin) as [Hlt Hn]. split; [lia|].
        rewrite lookup_total_insert_ne by lia. exact Hn.
  - apply IH; [|assumption].
    intros stem' t' Hin. apply (Hnamed stem' t'). right; assumption.
Qed.

End StoreFacts.

(** A file whose dict has no name is indexed by [_load_tools] under the
    stem of the file, and the dict stays without a name. *)
Example load_unnamed_file :
  let '(h, tools) := _load_tools [("orphan", Some Demo.anonymous)] 1%positive ∅ [] in
  tools = [("orphan", 1%positive)] /\ name (h !!! 1%positive) = None.
Proof. split; reflexivity. Qed.

Example save_tool_written_ex :
  let m := Demo.fresh Demo.anonymous Demo.pick_2_of_2 in
  let m' := save_tool Demo.py_str Demo.md5_hexdigest "2024-01-01T00:00:00" 1%positive m in
  keys_are_names m
  /\ name (heap m' !!! 1%positive) = Some "tool_9e107d9d37"
  /\ get_tool "tool_9e107d9d37" m' = Some 1%positive
  /\ keys_are_names
       (apply_op Demo.py_str Demo.md5_hexdigest
          (OpSaveTool "2024-01-01T00:00:00" 1%positive) m).
Proof.
  cbv zeta.
  assert (Hinv : keys_are_names (Demo.fresh Demo.anonymous Demo.pick_2_of_2))
    by (intros k r []).
  pose proof (save_tool_written Demo.py_str Demo.md5_hexdigest
                "2024-01-01T00:00:00" 1%positive
                (Demo.fresh Demo.anonymous Demo.pick_2_of_2))
    as (_ & _ & Hname & _ & _ & Hget & _ & Hops).
  split; [exact Hinv|].
  split; [exact Hname|].
  split; [exact Hget|].
  exact (Hops Hinv (OpSaveTool "2024-01-01T00:00:00" 1%positive)).
Defined.

(** ** Two more runs of the pipeline *)

(** A candidate with valid syntax and no test case passes vacuously; it is
    saved, and [integrate] then raises [KeyError] while it formats its log
    message, for the vacuous verdict has no ['passed_count']. *)
Example vacuous_pass_saved_then_raises :
  let m := Demo.fresh Demo.pick_untested Demo.pick_2_of_2 in
  let '(m', log', res) :=
    integrate Demo.py_str Demo.md5_hexdigest Demo.py_compile Demo.json_loads
      Demo.spawn Demo.timeout Integrator_default "2024-01-01T00:00:00"
      1%positive m [] in
  get_tool "pick" m' = Some 1%positive
  /\ log' = []
  /\ res = Raise (KeyError "passed_count").
Proof. vm_compute. repeat split. Qed.

(** A child whose entry point raises an exception with an empty message:
    the harness prints an envelope with [ok = false], no output and the
    empty text as error, and [_run] passes it on with [elapsed] added. *)
Example empty_message_failure :
  let stdout := Demo.harness_error "" in
  let spawn := fun (_ : list Runner) (_ : Runner) => Exited stdout "" (1 # 10) (2 # 10) in
  let json_loads := fun s =>
    if String.eqb s (PyStr.strip stdout)
    then Some (PDict [("ok", PBool false); ("output", PNone); ("error", PStr "")])
    else None in
  snd (run_code json_loads spawn Demo.timeout "def f(): raise ValueError()" "f" PNone [])
  = [("ok", PBool false); ("output", PNone); ("error", PStr "");
     ("elapsed", PFloat (1 # 10))].
Proof. vm_compute. reflexivity. Qed.

(** * Further properties of the pipeline *)

(** ** Dicts: keys *)

Lemma get_None_keys {V} k (d : list (string * V)) :
  PyDict.get k d = None <-> ~ In k (PyDict.keys d).
Proof.
  induction d as [|[k0 v0] d IH]; simpl; [tauto|].
  destruct (String.eqb_spec k k0) as [->|Hk].
  - split; [discriminate|]. intros H. exfalso. apply H. left. reflexivity.
  - rewrite IH. split; [intros H [?|?]; [congruence|tauto]|tauto].
Qed.

Lemma keys_set_present {V} k (v v0 : V) d :
  PyDict.get k d = Some v0 -> PyDict.keys (PyDict.set k v d) = PyDict.keys d.
Proof.
  induction d as [|[k0 v1] d IH]; simpl; [discriminate|].
  destruct (String.eqb_spec k k0) as [->|Hk]; simpl; [reflexivity|].
  intros H. rewrite (IH H). reflexivity.
Qed.

Lemma set_absent {V} k (v : V) d :
  PyDict.get k d = None -> PyDict.set k v d = d ++ [(k, v)].
Proof.
  induction d as [|[k0 v1] d IH]; simpl; [reflexivity|].
  destruct (String.eqb_spec k k0) as [->|Hk]; simpl; [discriminate|].
  intros H. rewrite (IH H). reflexivity.
Qed.

Lemma keys_set_NoDup {V} k (v : V) d :
  List.NoDup (PyDict.keys d) -> List.NoDup (PyDict.keys (PyDict.set k v d)).
Proof.
  intros Hnd. destruct (PyDict.get k d) as [v0|] eqn:E.
  - rewrite (keys_set_present _ _ _ _ E). exact Hnd.
  - rewrite (set_absent _ _ _ E). unfold PyDict.keys. rewrite map_app. simpl.
    apply get_None_keys in E.
    apply NoDup_ListNoDup, NoDup_app. repeat split.
    + apply NoDup_ListNoDup. exact Hnd.
    + intros x Hx [->|[]]%list_elem_of_In. apply E. apply list_elem_of_In. exact Hx.
    + apply NoDup_ListNoDup. constructor; [simpl; tauto|constructor].
Qed.

Lemma keys_remove_incl {V} k (d : list (string * V)) x :
  In x (PyDict.keys (PyDict.remove k d)) -> In x (PyDict.keys d).
Proof.
  induction d as [|[k0 v0] d IH]; simpl; [tauto|].
  destruct (String.eqb k k0); simpl; [tauto|].
  intros [?|?]; [left; assumption|right; apply IH; assumption].
Qed.

Lemma keys_remove_NoDup {V} k (d : list (string * V)) :
  List.NoDup (PyDict.keys d) -> List.NoDup (PyDict.keys (PyDict.remove k d)).
Proof.
  induction d as [|[k0 v0] d IH]; simpl; [tauto|].
  intros Hnd. inversion Hnd as [|? ? Hnin Hnd']; subst.
  destruct (String.eqb k k0); simpl; [assumption|].
  constructor; [|apply IH; assumption].
  intros Hin. apply Hnin. eapply keys_remove_incl. exact Hin.
Qed.

Lemma get_remove_eq {V} k (d : list (string * V)) :
  List.NoDup (PyDict.keys d) -> PyDict.get k (PyDict.remove k d) = None.
Proof.
  induction d as [|[k0 v0] d IH]; simpl; [reflexivity|].
  intros Hnd. inversion Hnd as [|? ? Hnin Hnd']; subst.
  destruct (String.eqb_spec k k0) as [->|Hk]; simpl.
  - apply get_None_keys. exact Hnin.
  - destruct (String.eqb_spec k k0); [congruence|]. apply IH. assumption.
Qed.

Lemma get_remove_ne {V} k k' (d : list (string * V)) :
  k <> k' -> PyDict.get k' (PyDict.remove k d) = PyDict.get k' d.
Proof.
  intros Hne. induction d as [|[k0 v0] d IH]; simpl; [reflexivity|].
  destruct (String.eqb_spec k k0) as [->|Hk]; simpl.
  - destruct (String.eqb_spec k' k0); [congruence|reflexivity].
  - destruct (String.eqb_spec k' k0); [reflexivity|exact IH].
Qed.

(** ** The store: deleting, re-saving, archiving, loading *)

Section StoreOpsFacts.

Variable py_str : Tool -> string.
Variable md5_hexdigest : string -> string.

(** [delete_tool] of a stored name removes the name from the index and its
    file from the tools directory, leaves every other name as it was, and
    files the dict it removed in the archive under ["<name>_<stamp>.json"];
    the dict itself is not changed. *)
Theorem delete_tool_archives_and_removes (stamp nm : string) (m : Memory) (r : loc) :
  List.NoDup (PyDict.keys (_tools m)) ->
  get_tool nm m = Some r ->
  let m' := delete_tool stamp nm m in
  get_tool nm m' = None
  /\ (forall k, k <> nm -> get_tool k m' = get_tool k m)
  /\ archive_dir m'
       !! (default "unknown" (name (heap m !!! r)) +:+ "_" +:+ stamp +:+ ".json")
     = Some (heap m !!! r)
  /\ tools_dir m' !! (nm +:+ ".json") = None
  /\ heap m' = heap m.
Proof.
  intros Hnd Hget. cbv zeta. unfold delete_tool, get_tool in *. rewrite Hget.
  cbn [_tools heap archive_dir tools_dir archive_tool].
  split; [apply get_remove_eq; assumption|].
  split; [intros k Hk; apply get_remove_ne; congruence|].
  split; [apply lookup_insert_eq|].
  split; [apply lookup_delete_eq|reflexivity].
Qed.

(** [delete_tool] of a name that is not stored does nothing: no archive
    file is written. *)
Theorem delete_tool_absent (stamp nm : string) (m : Memory) :
  get_tool nm m = None -> delete_tool stamp nm m = m.
Proof. unfold get_tool, delete_tool. intros ->. reflexivity. Qed.

(** [save_tool] keeps the order of the index: a name that is stored keeps
    its position, a new name goes last; no other name is touched, and the
    names stay distinct. *)
Theorem save_tool_keeps_order (now : string) (r : loc) (m : Memory) :
  let nm := saved_name py_str md5_hexdigest (heap m !!! r) in
  let m' := save_tool py_str md5_hexdigest now r m in
  (forall r0, get_tool nm m = Some r0 ->
     PyDict.keys (_tools m') = PyDict.keys (_tools m))
  /\ (get_tool nm m = None -> _tools m' = _tools m ++ [(nm, r)])
  /\ (forall k, k <> nm -> get_tool k m' = get_tool k m)
  /\ (List.NoDup (PyDict.keys (_tools m)) -> List.NoDup (PyDict.keys (_tools m'))).
Proof.
  cbv zeta. unfold save_tool, get_tool. cbn [_tools].
  rewrite saved_name_default.
  split; [intros r0 H; eapply keys_set_present; exact H|].
  split; [intros H; apply set_absent; exact H|].
  split; [intros k Hk; apply get_set_ne; congruence|].
  apply keys_set_NoDup.
Qed.

(** Two dicts of the same name archived at the same clock reading (the
    stamp has a resolution of one second) share one archive file: the
    second write replaces the first. *)
Theorem archive_same_second_overwrites (stamp : string) (t1 t2 : Tool) (m : Memory) :
  name t1 = name t2 ->
  archive_tool stamp t2 (archive_tool stamp t1 m) = archive_tool stamp t2 m
  /\ archive_dir (archive_tool stamp t2 (archive_tool stamp t1 m))
       !! (default "unknown" (name t1) +:+ "_" +:+ stamp +:+ ".json") = Some t2.
Proof.
  intros Hn. unfold archive_tool. cbn [heap _tools tools_dir archive_dir].
  rewrite Hn. rewrite insert_insert_eq. split; [reflexivity|].
  apply lookup_insert_eq.
Qed.

End StoreOpsFacts.

(** Loading keeps the keys of the index distinct and adds at most one
    entry per file that parses. *)
Lemma load_tools_NoDup files : forall next h tools,
  List.NoDup (PyDict.keys tools) ->
  List.NoDup (PyDict.keys (snd (_load_tools files next h tools))).
Proof.
  induction files as [|[stem [t|]] files IH]; intros next h tools Hnd;
    cbn [_load_tools]; [exact Hnd| |apply IH; exact Hnd].
  apply IH. apply keys_set_NoDup. exact Hnd.
Qed.

Lemma load_tools_length files : forall next h tools,
  length (snd (_load_tools files next h tools))
  <= length tools + length (List.filter (fun f => bool_decide (snd f <> None)) files).
Proof.
  induction files as [|[stem [t|]] files IH]; intros next h tools;
    cbn [_load_tools List.filter snd]; [lia| |apply IH].
  rewrite bool_decide_eq_true_2 by discriminate. cbn [length].
  etransitivity; [apply IH|].
  assert (length (PyDict.set (default stem (name t)) next tools) <= S (length tools)).
  { clear. induction tools as [|[k0 v0] tools IHt]; simpl; [lia|].
    destruct (String.eqb _ k0); simpl; lia. }
  lia.
Qed.

(** The index [_load_tools] builds from the files of the tools directory:
    files that do not parse are skipped, the keys are distinct, and when
    every dict that parses carries a name, every key is the name of its
    dict. *)
Theorem load_tools_index (files : list (string * option Tool)) :
  let '(h, tools) := _load_tools files 1%positive ∅ [] in
  List.NoDup (PyDict.keys tools)
  /\ length tools <= length (List.filter (fun f => bool_decide (snd f <> None)) files)
  /\ ((forall stem t, In (stem, Some t) files -> name t <> None) ->
      forall k r, In (k, r) tools -> name (h !!! r) = Some k).
Proof.
  destruct (_load_tools files 1%positive ∅ []) as [h tools] eqn:E.
  split; [|split].
  - pose proof (load_tools_NoDup files 1%positive ∅ [] (List.NoDup_nil _)) as H.
    rewrite E in H. exact H.
  - pose proof (load_tools_length files 1%positive ∅ []) as H.
    rewrite E in H. exact H.
  - intros Hnamed k r Hin.
    pose proof (load_tools_keys files 1%positive ∅ [] Hnamed) as H.
    rewrite E in H. cbn [fst snd] in H. apply H; [|exact Hin].
    intros k' r' [].
Qed.

Lemma string_length_app (s t : string) :
  String.length (s +:+ t) = String.length s + String.length t.
Proof.
  induction s as [|c s IH]; [reflexivity|].
  change (String c s +:+ t) with (String c (s +:+ t)).
  cbn [String.length]. rewrite IH. reflexivity.
Qed.

Lemma string_app_inv_tail (s1 s2 t : string) : s1 +:+ t = s2 +:+ t -> s1 = s2.
Proof.
  revert s2. induction s1 as [|c s1 IH]; intros [|c2 s2] H.
  - reflexivity.
  - exfalso. apply (f_equal String.length) in H.
    rewrite !string_length_app in H. cbn [String.length] in H. lia.
  - exfalso. apply (f_equal String.length) in H.
    rewrite !string_length_app in H. cbn [String.length] in H. lia.
  - change (String c (s1 +:+ t) = String c2 (s2 +:+ t)) in H.
    injection H as -> H. f_equal. apply IH. exact H.
Qed.

(** Archived at different clock readings, two versions of a name are both
    kept, each in its own archive file. *)
Theorem archive_distinct_stamps_kept (stamp1 stamp2 : string) (t1 t2 : Tool) (m : Memory) :
  name t1 = name t2 ->
  stamp1 <> stamp2 ->
  let m' := archive_tool stamp2 t2 (archive_tool stamp1 t1 m) in
  archive_dir m' !! (default "unknown" (name t1) +:+ "_" +:+ stamp1 +:+ ".json") = Some t1
  /\ archive_dir m' !! (default "unknown" (name t2) +:+ "_" +:+ stamp2 +:+ ".json") = Some t2.
Proof.
  intros Hn Hs. cbv zeta. unfold archive_tool. cbn [archive_dir]. rewrite Hn.
  split; [|apply lookup_insert_eq].
  rewrite lookup_insert_ne; [apply lookup_insert_eq|].
  intros E. apply Hs. symmetry.
  apply String.app_inj in E. apply String.app_inj in E.
  eapply string_app_inv_tail. exact E.
Qed.

(** ** The experience log *)

Section ExperienceFacts.

Variable exp_str : Experience -> string.
Variable md5_hexdigest : string -> string.

(** [store] keeps the log within its bound: the new experience, with its
    id, is the last item; while the log is not full nothing is dropped, and
    once it is full the oldest item is. The file holds the log. *)
Theorem store_bounded (e : Experience) (l : ExperienceLog) :
  length (_experiences l) <= max_experiences l ->
  let e' := set_id (_short_hash md5_hexdigest (exp_str e)) e in
  let l' := store exp_str md5_hexdigest e l in
  length (_experiences l') <= max_experiences l'
  /\ max_experiences l' = max_experiences l
  /\ (length (_experiences l) < max_experiences l ->
        _experiences l' = _experiences l ++ [e'])
  /\ (length (_experiences l) = max_experiences l -> 0 < max_experiences l ->
        _experiences l' = drop 1 (_experiences l) ++ [e'])
  /\ (max_experiences l = 0 -> _experiences l' = [])
  /\ exp_file l' = Some (_experiences l').
Proof.
  intros Hlen. cbv zeta. unfold store, Deque.append, Deque.make.
  cbn [_experiences max_experiences exp_file].
  rewrite length_app. cbn [length].
  split; [rewrite length_drop, length_app; cbn [length]; lia|].
  split; [reflexivity|].
  split.
  { intros Hlt. replace (length (_experiences l) + 1 - max_experiences l) with 0 by lia.
    reflexivity. }
  split.
  { intros Heq Hpos.
    replace (length (_experiences l) + 1 - max_experiences l) with 1 by lia.
    rewrite drop_app_le by lia. reflexivity. }
  split; [|reflexivity].
  intros H0. apply drop_ge. rewrite length_app. cbn [length]. lia.
Qed.

(** What [Memory.__init__] keeps of a stored log longer than the bound:
    its newest items. *)
Lemma experiences_init_bounded loaded maxlen :
  length (_experiences (experiences_init loaded maxlen)) <= maxlen.
Proof.
  unfold experiences_init, Deque.make. cbn [_experiences].
  rewrite length_drop. lia.
Qed.












(** [recall] returns the top of the ranking: for [k >= 0] its first [k]
    items, or all of them when there are fewer; for a negative [k] all but
    the last [-k]. A query without a word recalls nothing. *)
Theorem recall_cut (query : string) (k : Z) (l : ExperienceLog) :
  let ranked := recall_ranked query l in
  (exists rest,
     map (fun se => recalled (snd se)) ranked = recall query k l ++ rest)
  /\ ((0 <= k)%Z -> length (recall query k l) = Nat.min (Z.to_nat k) (length ranked))
  /\ ((k < 0)%Z -> length (recall query k l) = length ranked - Z.to_nat (- k))
  /\ (task_words query = [] -> recall query k l = []).
Proof.
  cbv zeta. unfold recall, slice_to.
  split.
  { destruct (0 <=? k)%Z.
    - exists (map (fun se => recalled (snd se)) (drop (Z.to_nat k) (recall_ranked query l))).
      rewrite <- map_app, take_drop. reflexivity.
    - exists (map (fun se => recalled (snd se))
                (drop (length (recall_ranked query l) - Z.to_nat (- k))
                   (recall_ranked query l))).
      rewrite <- map_app, take_drop. reflexivity. }
  split.
  { intros Hk. destruct (Z.leb_spec 0 k); [|lia].
    rewrite length_map, length_take. reflexivity. }
  split.
  { intros Hk. destruct (Z.leb_spec 0 k); [lia|].
    rewrite length_map, length_take. lia. }
  intros Hw. unfold recall_ranked. rewrite Hw.
  assert (E : recall_scored [] (_experiences l) = []).
  { induction (_experiences l) as [|e es IH]; [reflexivity|].
    cbn [recall_scored]. exact IH. }
  rewrite E. cbn [sort_desc]. destruct (0 <=? k)%Z; rewrite take_nil; reflexivity.
Qed.

End ExperienceFacts.

(** ** The engine: results *)

Section EngineResultFacts.

Variable json_loads : string -> option pyval.
Variable spawn : list Runner -> Runner -> ProcOutcome.
Variable timeout : nat.

(** A result of [_run] is either one the engine wrote itself, with the four
    keys and a boolean [ok], or the JSON object the child printed, with
    [elapsed] set. *)
Theorem run_result_complete_or_child_object (o : ProcOutcome) :
  let r := run_result json_loads timeout o in
  (exists b out err q,
      r = [("ok", PBool b); ("output", out); ("error", err); ("elapsed", PFloat q)]
      \/ r = [("ok", PBool b); ("output", out); ("elapsed", PFloat q); ("error", err)])
  \/ (exists out err elapsed late d,
        o = Exited out err elapsed late
        /\ json_loads (PyStr.strip out) = Some (PDict d)
        /\ r = PyDict.set "elapsed" (PFloat elapsed) d).
Proof.
  cbv zeta. destruct o as [out err e l|e|msg e]; cbn [run_result].
  - destruct (PyStr.nonempty (PyStr.strip out)).
    + destruct (json_loads (PyStr.strip out)) as [data|] eqn:Ej.
      * destruct data; cbn [Py.as_dict];
          try (left; eexists _, _, _, _; left; reflexivity).
        right. eexists _, _, _, _, _. repeat split; eauto.
      * left. eexists _, _, _, _. right. reflexivity.
    + left. eexists _, _, _, _. left. reflexivity.
  - left. eexists _, _, _, _. left. reflexivity.
  - left. eexists _, _, _, _. left. reflexivity.
Qed.

(** The child's JSON object reaches the caller as printed, except for
    [elapsed], which is the engine's measurement whatever the child wrote
    under that key. *)
Theorem child_object_passes_through (c fn : string) (kw : pyval)
    (log : list Runner) (out err : string) (elapsed late : Q)
    (d : list (string * pyval)) :
  spawn log (_build_runner c fn (if Py.truthy kw then kw else PDict []))
    = Exited out err elapsed late ->
  PyStr.nonempty (PyStr.strip out) = true ->
  json_loads (PyStr.strip out) = Some (PDict d) ->
  let r := snd (run_code json_loads spawn timeout c fn kw log) in
  PyDict.get "elapsed" r = Some (PFloat elapsed)
  /\ forall k, k <> "elapsed" -> PyDict.get k r = PyDict.get k d.
Proof.
  intros Hs Hne Hj. cbv zeta. unfold run_code, _run. cbn [snd].
  rewrite Hs. unfold run_result. rewrite Hne, Hj. cbn [Py.as_dict].
  split; [apply get_set_eq|].
  intros k Hk. apply get_set_ne. congruence.
Qed.

(** A child that prints nothing but white space, or nothing at all, is a
    failure whose error is its standard error, stripped, or ["no output"]
    when that is empty too: the error text is never empty. A child that
    exceeds the deadline is a failure whose error names the deadline. *)
Theorem silent_or_late_child_is_failure (o : ProcOutcome) :
  (forall out err elapsed late,
     o = Exited out err elapsed late -> PyStr.strip out = "" ->
     exists msg,
       run_result json_loads timeout o = failure msg elapsed
       /\ msg <> ""
       /\ (PyStr.strip err <> "" -> msg = PyStr.strip err)
       /\ (PyStr.strip err = "" -> msg = "no output"))
  /\ (forall elapsed,
        o = TimeoutExpired elapsed ->
        run_result json_loads timeout o
        = failure ("timed out after " +:+ pretty timeout +:+ "s") elapsed).
Proof.
  split.
  - intros out err elapsed late -> Hout. cbn [run_result]. rewrite Hout.
    cbn [PyStr.nonempty].
    destruct (PyStr.strip err) as [|ch s] eqn:Ee; cbn [PyStr.nonempty].
    + exists "no output". repeat split; [discriminate|congruence].
    + exists (String ch s). repeat split; [discriminate|discriminate].
  - intros elapsed ->. reflexivity.
Qed.

(** [run_tool] past its guard is [run_code] on the tool's source: the child
    gets [kwargs] when there are any, else the task under the key ["task"]
    when there is one, else no argument; exactly one child is run. *)
Theorem run_tool_runs_code (tool : Tool) (task : string) (kw : pyval)
    (log : list Runner) (c fn : string) :
  code tool = Some c -> c <> "" ->
  func_name tool = Some fn -> fn <> "" ->
  let call_args :=
    if Py.truthy kw then kw
    else if PyStr.nonempty task then PDict [("task", PStr task)] else PDict [] in
  run_tool json_loads spawn timeout tool task kw log
  = run_code json_loads spawn timeout c fn call_args log
  /\ fst (run_tool json_loads spawn timeout tool task kw log)
     = log ++ [{| runner_code := c; runner_func_name := fn;
                  runner_kwargs := call_args |}].
Proof.
  intros Hc Hcne Hf Hfne. cbv zeta. unfold run_tool, run_code, _run.
  rewrite Hc, Hf. cbn [from_option id].
  destruct c as [|c0 c']; [congruence|]. destruct fn as [|f0 f']; [congruence|].
  cbn [PyStr.nonempty negb orb].
  destruct (Py.truthy kw) eqn:Ekw.
  - rewrite Ekw. split; reflexivity.
  - destruct (PyStr.nonempty task); split; reflexivity.
Qed.

End EngineResultFacts.

(** ** The Gate: the run over the cases *)

Section GateRunFacts.

Variable py_compile : string -> option string.
Variable json_loads : string -> option pyval.
Variable spawn : list Runner -> Runner -> ProcOutcome.
Variable timeout : nat.

Lemma test_loop_trace c fn tcs : forall rows n log log1 rows1 n1,
  test_loop json_loads spawn timeout c fn tcs rows n log = (log1, Ok (rows1, n1)) ->
  log1 = log ++ map (case_runner c fn) tcs
  /\ map row_label rows1
     = map row_label rows ++ map (fun tc => default "unnamed" (tc_label tc)) tcs
  /\ map row_expected_success rows1
     = map row_expected_success rows
       ++ map (fun tc => default true (tc_expect_success tc)) tcs.
Proof.
  induction tcs as [|tc tcs IH]; intros rows n log log1 rows1 n1; cbn [test_loop].
  - intros [= <- <- <-]. cbn [map]. rewrite !app_nil_r. repeat split.
  - destruct (run_code _ _ _ _ _ _ log) as [log' r] eqn:Hr.
    destruct (PyDict.get "ok" r) as [ok|]; [|discriminate].
    intros H. apply IH in H. destruct H as (Hlog & Hlab & Hexp).
    pose proof (run_code_log json_loads spawn timeout c fn
                  (default (PDict []) (tc_input tc)) log) as E.
    rewrite Hr in E. cbn [fst] in E.
    rewrite Hlog, Hlab, Hexp, E, !map_app. cbn [map row_label row_expected_success].
    rewrite <- !app_assoc. repeat split.
Qed.

(** When [test_tool] returns a verdict for a tool with valid syntax and at
    least one case, it has run exactly one child per case, in the declared
    order and with the case's input, and the rows of the verdict are the
    cases in that order, with their labels and expectations. *)
Theorem test_tool_runs_cases_in_order (tool : Tool) (log log1 : list Runner)
    (v : Verdict) (tc : TestCase) (tcs : list TestCase) :
  py_compile (default "" (code tool)) = None ->
  test_cases tool = Some (tc :: tcs) ->
  test_tool py_compile json_loads spawn timeout tool log = (log1, Ok v) ->
  log1 = log ++ map (case_runner (default "" (code tool))
                       (default "" (func_name tool))) (tc :: tcs)
  /\ map row_label (results v)
     = map (fun tc => default "unnamed" (tc_label tc)) (tc :: tcs)
  /\ map row_expected_success (results v)
     = map (fun tc => default true (tc_expect_success tc)) (tc :: tcs).
Proof.
  intros Hc Htc. unfold test_tool, _syntax_check. rewrite Hc, Htc.
  cbn [from_option id].
  destruct (test_loop _ _ _ _ _ (tc :: tcs) [] 0 log) as [log' [[rows n]|e]] eqn:Hl;
    [|discriminate].
  intros [= <- <-]. cbn [results].
  apply test_loop_trace in Hl. exact Hl.
Qed.

(** The arithmetic of the verdict: the counts are those of the rows, the
    rate lies between 0 and 1, and the verdict passes exactly when at least
    three quarters of the cases hit. *)
Theorem test_tool_verdict_counts (tool : Tool) (log log1 : list Runner)
    (v : Verdict) (tc : TestCase) (tcs : list TestCase) :
  py_compile (default "" (code tool)) = None ->
  test_cases tool = Some (tc :: tcs) ->
  test_tool py_compile json_loads spawn timeout tool log = (log1, Ok v) ->
  let total := length (tc :: tcs) in
  passed_count v = Some (hits (results v))
  /\ total_count v = Some total
  /\ length (results v) = total
  /\ pass_rate v = rate_of (hits (results v)) total
  /\ (0 <= pass_rate v)%Q /\ (pass_rate v <= 1)%Q
  /\ (passed v = true <-> 3 * total <= 4 * hits (results v))
  /\ error v = None.
Proof.
  intros Hc Htc Ht. cbv zeta.
  assert (Hd : default [] (test_cases tool) = tc :: tcs) by (rewrite Htc; reflexivity).
  assert (Hne : default [] (test_cases tool) <> []) by (rewrite Hd; discriminate).
  revert Ht. unfold test_tool at 1, _syntax_check. rewrite Hc, Hd.
  destruct (test_loop _ _ _ _ _ (tc :: tcs) [] 0 log) as [log' [[rows n]|e]] eqn:Hl;
    [|discriminate].
  intros [= <- <-]. cbn [passed_count total_count results pass_rate passed error].
  pose proof (test_loop_counts json_loads spawn timeout _ _ _ _ _ _ _ _ _ Hl)
    as (Hlen & Hn & _).
  specialize (Hn eq_refl). cbn [length] in Hlen. cbn [app length] in Hlen.
  assert (Hh : hits rows <= length rows).
  { unfold hits. apply List.filter_length_le. }
  rewrite <- Hn.
  split; [reflexivity|]. split; [reflexivity|]. split; [exact Hlen|].
  split; [reflexivity|].
  split. { unfold rate_of, Qle. cbn [Qnum Qden]. lia. }
  split.
  { unfold rate_of, Qle. cbn [Qnum Qden].
    rewrite <- (Nat2Pos.id (length (tc :: tcs))) at 1 by (cbn [length]; lia).
    cbn [length] in *. lia. }
  split; [|reflexivity].
  rewrite rate_reaches_three_quarters by (cbn [length]; lia).
  rewrite Nat.leb_le. reflexivity.
Qed.

(** The rule by which a result scores a case, for a boolean [ok]: a failed
    run hits exactly the cases that expect failure; a run that succeeds
    with output [None] hits no case; a run that succeeds with an output
    that is neither [None] nor a dict hits exactly the cases that expect
    success. *)
Lemma case_hit_rule (b : bool) (r : list (string * pyval)) (expect_ok : bool) :
  let hit := Py.eq_bool (actual_success (PBool b) r expect_ok) expect_ok in
  (b = false -> hit = negb expect_ok)
  /\ (b = true -> rget "output" r = PNone -> hit = false)
  /\ (b = true -> rget "output" r <> PNone ->
      Py.as_dict (rget "output" r) = None -> hit = expect_ok).
Proof.
  cbv zeta. unfold actual_success. repeat split.
  - intros ->. cbn. destruct expect_ok; reflexivity.
  - intros -> Ho. cbn [Py.truthy]. rewrite Ho. cbn. destruct expect_ok; reflexivity.
  - intros -> Ho Hd. cbn [Py.truthy]. rewrite Hd.
    destruct (rget "output" r); try congruence; cbn; destruct expect_ok; reflexivity.
Qed.

(** A child that prints a JSON object without an ["ok"] entry, for the
    first case: [test_tool] raises [KeyError] after that one run, and the
    later cases are not run. *)
Theorem envelope_without_ok_raises (tool : Tool) (log : list Runner)
    (tc : TestCase) (tcs : list TestCase) (out err : string) (elapsed late : Q)
    (d : list (string * pyval)) :
  py_compile (default "" (code tool)) = None ->
  test_cases tool = Some (tc :: tcs) ->
  spawn log (case_runner (default "" (code tool)) (default "" (func_name tool)) tc)
    = Exited out err elapsed late ->
  PyStr.nonempty (PyStr.strip out) = true ->
  json_loads (PyStr.strip out) = Some (PDict d) ->
  PyDict.get "ok" d = None ->
  test_tool py_compile json_loads spawn timeout tool log
  = (log ++ [case_runner (default "" (code tool)) (default "" (func_name tool)) tc],
     Raise (KeyError "ok")).
Proof.
  intros Hc Htc Hs Hne Hj Hok. unfold test_tool, _syntax_check.
  rewrite Hc, Htc. cbn [from_option id test_loop].
  unfold run_code, _run. unfold case_runner in Hs. rewrite Hs.
  unfold run_result. rewrite Hne, Hj. cbn [Py.as_dict].
  rewrite get_set_ne by discriminate. rewrite Hok. reflexivity.
Qed.

End GateRunFacts.

(** ** The integrator: the other paths *)

Section IntegratorPathFacts.

Variable py_str : Tool -> string.
Variable md5_hexdigest : string -> string.
Variable py_compile : string -> option string.
Variable json_loads : string -> option pyval.
Variable spawn : list Runner -> Runner -> ProcOutcome.
Variable timeout : nat.

(** A candidate with valid syntax and no test case passes the Gate without
    a run; [integrate] saves it and then raises [KeyError]: its log message
    reads ['passed_count'], which the vacuous verdict does not have. The
    caller gets no report, and the tool is in the store. *)
Theorem vacuous_candidate_saved_then_KeyError (self : Integrator) (now : string)
    (r : loc) (m : Memory) (log : list Runner) :
  py_compile (default "" (code (heap m !!! r))) = None ->
  default [] (test_cases (heap m !!! r)) = [] ->
  test_tool py_compile json_loads spawn timeout (heap m !!! r) log
  = (log, Ok {| passed := true; pass_rate := 1; passed_count := None;
                total_count := None; results := []; error := None |})
  /\ integrate py_str md5_hexdigest py_compile json_loads spawn timeout
       self now r m log
     = (save_tool py_str md5_hexdigest now r m, log, Raise (KeyError "passed_count"))
  /\ get_tool (saved_name py_str md5_hexdigest (heap m !!! r))
       (save_tool py_str md5_hexdigest now r m) = Some r.
Proof.
  intros Hc Htc.
  assert (Ht : test_tool py_compile json_loads spawn timeout (heap m !!! r) log
               = (log, Ok {| passed := true; pass_rate := 1; passed_count := None;
                             total_count := None; results := []; error := None |})).
  { unfold test_tool, _syntax_check. rewrite Hc, Htc. reflexivity. }
  split; [exact Ht|].
  split; [unfold integrate; rewrite Ht; reflexivity|].
  unfold get_tool, save_tool. cbn [_tools]. rewrite saved_name_default.
  apply get_set_eq.
Qed.


(** [upgrade] of a name that is not stored is [integrate]: nothing is
    archived. *)
Theorem upgrade_unknown_name_is_integrate (self : Integrator) (stamp now : string)
    (tool_name : string) (r : loc) (m : Memory) (log : list Runner) :
  get_tool tool_name m = None ->
  upgrade py_str md5_hexdigest py_compile json_loads spawn timeout
    self stamp now tool_name r m log
  = integrate py_str md5_hexdigest py_compile json_loads spawn timeout
      self now r m log.
Proof. intros Hg. unfold upgrade. rewrite Hg. reflexivity. Qed.

(** [force_integrate] stores what the Gate refuses: for a tool whose source
    does not parse, [integrate] reports the syntax error and leaves the
    memory as it was, while [force_integrate] files the tool under its name
    and reports success. *)
Theorem force_integrate_skips_the_gate (self : Integrator) (now : string)
    (r : loc) (m : Memory) (log : list Runner) (msg : string) :
  py_compile (default "" (code (heap m !!! r))) = Some msg ->
  (exists rep,
     integrate py_str md5_hexdigest py_compile json_loads spawn timeout
       self now r m log = (m, log, Ok rep)
     /\ rep_ok rep = false
     /\ rep_error rep = Some ("SyntaxError: " +:+ msg))
  /\ rep_ok (snd (force_integrate py_str md5_hexdigest now r m)) = true
  /\ get_tool (saved_name py_str md5_hexdigest (heap m !!! r))
       (fst (force_integrate py_str md5_hexdigest now r m)) = Some r
  /\ fst (force_integrate py_str md5_hexdigest now r m)
     = save_tool py_str md5_hexdigest now r m.
Proof.
  intros Hc. split.
  - unfold integrate, test_tool, _syntax_check. rewrite Hc.
    cbn [passed]. eexists. split; [reflexivity|].
    cbn [rep_ok rep_error error from_option id]. split; [reflexivity|].
    reflexivity.
  - unfold force_integrate. cbn [fst snd rep_ok].
    split; [reflexivity|]. split; [|reflexivity].
    unfold get_tool, save_tool. cbn [_tools]. rewrite saved_name_default.
    apply get_set_eq.
Qed.

End IntegratorPathFacts.

(** ** The evolution log *)

(** [_pass_rate] is [None] for no rows only, and lies between 0 and 1. *)
Lemma pass_rate_bounds (rows : list Row) :
  (_pass_rate rows = None <-> rows = [])
  /\ forall q, _pass_rate rows = Some q -> (0 <= q)%Q /\ (q <= 1)%Q.
Proof.
  destruct rows as [|r rows]; cbn [_pass_rate].
  - split; [tauto|discriminate].
  - split; [split; discriminate|].
    intros q [= <-].
    assert (Hh : hits (r :: rows) <= length (r :: rows))
      by (unfold hits; apply List.filter_length_le).
    assert (E : Z.pos (Pos.of_nat (length (r :: rows))) = Z.of_nat (length (r :: rows))).
    { rewrite <- positive_nat_Z, Nat2Pos.id by (cbn [length]; lia). reflexivity. }
    unfold rate_of, Qle. cbn [Qnum Qden length] in *. rewrite E. split; lia.
Qed.

(** The rate the evolution log computes from the rows of a report is the
    rate of the Gate's verdict: for a tool with valid syntax and at least
    one case, [_pass_rate] of the verdict's rows is its [pass_rate]. *)
Theorem logged_pass_rate_is_verdict_rate py_compile json_loads spawn timeout
    (tool : Tool) (log log1 : list Runner) (v : Verdict)
    (tc : TestCase) (tcs : list TestCase) :
  py_compile (default "" (code tool)) = None ->
  test_cases tool = Some (tc :: tcs) ->
  test_tool py_compile json_loads spawn timeout tool log = (log1, Ok v) ->
  _pass_rate (results v) = Some (pass_rate v).
Proof.
  intros Hc Htc Ht.
  pose proof (test_tool_verdict_counts py_compile json_loads spawn timeout
                tool log log1 v tc tcs Hc Htc Ht) as (_ & _ & Hlen & Hrate & _).
  cbv zeta in *. rewrite Hrate.
  destruct (results v) as [|row rows] eqn:Er; [cbn [length] in Hlen; lia|].
  cbn [_pass_rate]. rewrite Hlen. reflexivity.
Qed.

(** [record] appends one entry and keeps the entries before it; called
    without metadata, as the agent calls it, the entry reads back what was
    recorded, and the timeline, when it could be built before, gains one
    item with the date (the first ten characters of the timestamp) and the
    first sixty characters of the trigger. *)
Theorem record_appends (generation : Z) (now trigger : string)
    (new_tool description : pyval) (test_results : option (list Row))
    (l : EvolutionLog) (items : list TimelineItem) :
  timeline l = Some items ->
  let l' := record generation now trigger new_tool description test_results None l in
  (exists e,
      history l' = history l ++ [e]
      /\ PyDict.get "generation" e = Some (PInt generation)
      /\ PyDict.get "timestamp" e = Some (PStr now)
      /\ PyDict.get "trigger" e = Some (PStr trigger)
      /\ PyDict.get "new_tool" e = Some new_tool
      /\ PyDict.get "description" e = Some description)
  /\ history_file l' = Some (history l')
  /\ timeline l'
     = Some (items ++ [{| tl_gen := PInt generation;
                          tl_ts := PStr (PyStr.take 10 now);
                          tl_tool := new_tool;
                          tl_trigger := PStr (PyStr.take 60 trigger) |}]).
Proof.
  intros Ht. cbv zeta. unfold record, timeline in *. cbn [history history_file].
  split; [eexists; split; [reflexivity|repeat split]|].
  split; [reflexivity|].
  revert items Ht. induction (history l) as [|e h IH]; intros items Ht.
  - cbn in Ht. injection Ht as <-. reflexivity.
  - cbn [app timeline_of] in *.
    destruct (timeline_item e) as [it|]; [|discriminate].
    destruct (timeline_of h) as [its|]; [|discriminate].
    injection Ht as <-. rewrite (IH its eq_refl). reflexivity.
Qed.

(** ** The agent *)

Section AgentFacts.

Variable py_str : Tool -> string.
Variable md5_hexdigest : string -> string.
Variable py_compile : string -> option string.
Variable json_loads : string -> option pyval.
Variable spawn : list Runner -> Runner -> ProcOutcome.
Variable timeout : nat.
Variable write_tool : string -> string -> option Tool.

Lemma new_tool_ref_fresh m : heap m !! new_tool_ref m = None.
Proof. apply not_elem_of_dom. unfold new_tool_ref. apply is_fresh. Qed.

(** Writing a new tool dict changes no dict that exists. *)
Lemma alloc_tool_frame t m r :
  is_Some (heap m !! r) -> heap (alloc_tool t m) !!! r = heap m !!! r.
Proof.
  intros [t0 Hr]. unfold alloc_tool. cbn [heap].
  rewrite lookup_total_insert_ne; [reflexivity|].
  intros <-. rewrite new_tool_ref_fresh in Hr. discriminate.
Qed.

(** What a report of [integrate] says about the memory. *)
Lemma integrate_report_memory self now r m log m1 log1 rep :
  integrate py_str md5_hexdigest py_compile json_loads spawn timeout
    self now r m log = (m1, log1, Ok rep) ->
  (rep_ok rep = true -> m1 = save_tool py_str md5_hexdigest now r m)
  /\ (rep_ok rep = false -> m1 = m).
Proof.
  unfold integrate.
  destruct (test_tool py_compile json_loads spawn timeout (heap m !!! r) log)
    as [log' [v|e]]; [|discriminate].
  destruct (passed v).
  - destruct (passed_count v), (total_count v); try discriminate.
    intros H. inversion H; subst. cbn [rep_ok]. split; [reflexivity|discriminate].
  - intros H. inversion H; subst. cbn [rep_ok]. split; [discriminate|reflexivity].
Qed.

(** [_evolve] returns [True] exactly when the new tool was integrated, and
    then the generation is one more, the agent's list of tools and the
    evolution log each gain one entry, both with the name the tool is
    stored under (also when the written dict had no name), and that name
    finds the new tool in the store. When it returns [False] the state of
    the agent and the evolution log are as before. *)
Theorem _evolve_counts_integrations (now_save now_record task : string)
    (description : option string) (a a' : Agent) (b : bool) :
  _evolve py_str md5_hexdigest py_compile json_loads spawn timeout write_tool
    now_save now_record task description a = (a', Ok b) ->
  (b = false -> ag_state a' = ag_state a /\ ag_evo a' = ag_evo a)
  /\ (b = true ->
      exists nm e,
        st_generation (ag_state a') = (st_generation (ag_state a) + 1)%Z
        /\ st_tools (ag_state a') = st_tools (ag_state a) ++ [Some nm]
        /\ get_tool nm (ag_memory a') = Some (new_tool_ref (ag_memory a))
        /\ name (heap (ag_memory a') !!! new_tool_ref (ag_memory a)) = Some nm
        /\ history (ag_evo a') = history (ag_evo a) ++ [e]
        /\ PyDict.get "generation" e = Some (PInt (st_generation (ag_state a')))
        /\ PyDict.get "new_tool" e = Some (PStr nm)
        /\ PyDict.get "trigger" e = Some (PStr task)).
Proof.
  unfold _evolve.
  destruct (negb (PyStr.nonempty (default "" description))).
  { intros H. inversion H; subst. split; [tauto|discriminate]. }
  destruct (write_tool (default "" description) task) as [tool|].
  2: { intros H. inversion H; subst. split; [tauto|discriminate]. }
  set (r := new_tool_ref (ag_memory a)).
  set (m0 := alloc_tool tool (ag_memory a)).
  destruct (integrate py_str md5_hexdigest py_compile json_loads spawn timeout
              Integrator_default now_save r m0 (ag_engine a))
    as [[m1 log1] [rep|e]] eqn:Hi; [|discriminate].
  apply integrate_report_memory in Hi. destruct Hi as [Hsaved _].
  destruct (rep_ok rep).
  - specialize (Hsaved eq_refl).
    assert (Hn : name (heap m1 !!! r)
                 = Some (saved_name py_str md5_hexdigest (heap m0 !!! r))).
    { rewrite Hsaved, save_tool_content, saved_name_default. reflexivity. }
    intros H. inversion H; subst a' b. clear H.
    split; [discriminate|]. intros _.
    cbn [ag_state ag_memory ag_evo st_generation st_tools].
    rewrite Hn. cbn [name_value].
    eexists _, _. split; [reflexivity|]. split; [reflexivity|].
    split.
    { rewrite Hsaved. unfold get_tool, save_tool. cbn [_tools].
      rewrite saved_name_default. apply get_set_eq. }
    split; [reflexivity|].
    unfold record. cbn [history]. split; [reflexivity|]. repeat split.
  - intros H. inversion H; subst. split; [|discriminate].
    intros _. split; reflexivity.
Qed.

End AgentFacts.

(** [status] lists the names of the stored tools: when every key of the
    index is the name of its dict, [tool_names] is the list of the keys, in
    the order of the index, and does not raise. *)
Theorem tool_names_are_keys (m : Memory) :
  keys_are_names m ->
  tool_names (heap m) (all_tools m) = Ok (PyDict.keys (_tools m)).
Proof.
  unfold keys_are_names, all_tools, PyDict.values, PyDict.keys.
  induction (_tools m) as [|[k r] d IH]; intros Hinv; cbn [map tool_names fst snd].
  - reflexivity.
  - rewrite (Hinv k r) by (left; reflexivity).
    rewrite IH; [reflexivity|].
    intros k' r' Hin. apply Hinv. right. exact Hin.
Qed.

(** ** The selector: too few words *)

Lemma score_le_words words t : score words t <= length words.
Proof. unfold score. apply length_filter. Qed.

(** A task of fewer than two distinct words matches no tool, whatever the
    store holds; so does any task on an empty store. *)
Theorem best_tool_for_needs_two_words (task : string) (m : Memory) :
  length (task_words task) < 2 \/ _tools m = [] ->
  best_tool_for task m = None.
Proof.
  intros H. unfold best_tool_for.
  pose proof (best_loop_first_max (heap m) (task_words task) (all_tools m) None 0) as Hl.
  cbv zeta in Hl.
  destruct Hl as [[-> _]|(pre & r & post & Htools & -> & _ & _ & _)]; [reflexivity|].
  destruct H as [Hw|Hempty].
  - pose proof (score_le_words (task_words task) (heap m !!! r)) as Hs.
    destruct (Nat.leb_spec 2 (score (task_words task) (heap m !!! r))); [lia|reflexivity].
  - exfalso. unfold all_tools in Htools. rewrite Hempty in Htools.
    destruct pre; discriminate.
Qed.

(** The share of the tasks done that [status] reports lies between 0 and
    1, and is 0 before any task was run: the divisor is never 0. *)
Theorem success_rate_bounds (st : AgentState) :
  (0 <= success_rate st)%Q /\ (success_rate st <= 1)%Q
  /\ (st_done st = 0 -> (success_rate st == 0)%Q)
  /\ (st_failed st = 0 -> 0 < st_done st -> (success_rate st == 1)%Q).
Proof.
  unfold success_rate, rate_of, Qle, Qeq. cbn [Qnum Qden].
  assert (E : Z.pos (Pos.of_nat (Nat.max 1 (st_done st + st_failed st)))
              = Z.of_nat (Nat.max 1 (st_done st + st_failed st))).
  { rewrite <- positive_nat_Z, Nat2Pos.id by lia. reflexivity. }
  rewrite E. repeat split; lia.
Qed.

(** ** From the Gate to the selector *)

Section EndToEnd.

Variable py_str : Tool -> string.
Variable md5_hexdigest : string -> string.

(** A tool that was saved is found: after [save_tool], every task that
    has two words occurring in the saved tool's name and description gets
    some tool from [best_tool_for], and gets this very tool when the store
    held nothing else. *)
Theorem saved_tool_is_found (now task : string) (r : loc) (m : Memory) :
  let m' := save_tool py_str md5_hexdigest now r m in
  2 <= score (task_words task) (heap m' !!! r) ->
  best_tool_for task m' <> None
  /\ (_tools m = [] -> best_tool_for task m' = Some r).
Proof.
  cbv zeta. intros Hs. split.
  - unfold best_tool_for.
    pose proof (best_loop_first_max (heap (save_tool py_str md5_hexdigest now r m))
                  (task_words task)
                  (all_tools (save_tool py_str md5_hexdigest now r m)) None 0) as Hl.
    cbv zeta in Hl.
    assert (Hin : In r (all_tools (save_tool py_str md5_hexdigest now r m))).
    { unfold all_tools, PyDict.values. apply in_map_iff.
      exists (saved_name py_str md5_hexdigest (heap m !!! r), r). split; [reflexivity|].
      apply get_in. unfold save_tool. cbn [_tools]. rewrite saved_name_default.
      apply get_set_eq. }
    destruct Hl as [[_ Hall]|(pre & r1 & post & Htools & -> & _ & Hpre & Hpost)].
    + specialize (Hall r Hin). lia.
    + assert (2 <= score (task_words task)
                     (heap (save_tool py_str md5_hexdigest now r m) !!! r1)).
      { rewrite Htools in Hin. apply in_app_or in Hin.
        destruct Hin as [Hin|[<-|Hin]].
        - specialize (Hpre r Hin). lia.
        - exact Hs.
        - specialize (Hpost r Hin). lia. }
      destruct (Nat.leb_spec 2 (score (task_words task)
                  (heap (save_tool py_str md5_hexdigest now r m) !!! r1)));
        [discriminate|lia].
  - intros Hempty. unfold best_tool_for, all_tools, PyDict.values.
    unfold save_tool at 2. cbn [_tools]. rewrite Hempty. cbn [PyDict.set map snd best_loop].
    destruct (Nat.ltb_spec 0 (score (task_words task)
                (heap (save_tool py_str md5_hexdigest now r m) !!! r))); [|lia].
    destruct (Nat.leb_spec 2 (score (task_words task)
                (heap (save_tool py_str md5_hexdigest now r m) !!! r))); [reflexivity|lia].
Qed.

End EndToEnd.

(** ** The further properties, at concrete inputs *)

Lemma delete_tool_archives_and_removes_witness :
  let m' := delete_tool "20240105_120000" "pick" Demo.stored_pick in
  get_tool "pick" Demo.stored_pick = Some 1%positive
  /\ get_tool "pick" m' = None
  /\ archive_dir m' !! "pick_20240105_120000.json"
     = Some (heap Demo.stored_pick !!! 1%positive)
  /\ tools_dir m' !! "pick.json" = None.
Proof.
  cbv zeta.
  assert (Hnd : List.NoDup (PyDict.keys (_tools Demo.stored_pick)))
    by (repeat constructor; simpl; tauto).
  assert (Hg : get_tool "pick" Demo.stored_pick = Some 1%positive) by reflexivity.
  destruct (delete_tool_archives_and_removes "20240105_120000" "pick"
              Demo.stored_pick 1%positive Hnd Hg) as (H1 & _ & H3 & H4 & _).
  split; [exact Hg|]. split; [exact H1|]. split; [exact H3|exact H4].
Defined.

Lemma save_tool_keeps_order_witness :
  let m' := save_tool Demo.py_str Demo.md5_hexdigest "2024-01-03T00:00:00" 1%positive
              Demo.stored_readers in
  get_tool "csv-reader" Demo.stored_readers = Some 1%positive
  /\ PyDict.keys (_tools m') = PyDict.keys (_tools Demo.stored_readers).
Proof.
  cbv zeta.
  assert (Hg : get_tool "csv-reader" Demo.stored_readers = Some 1%positive) by reflexivity.
  split; [exact Hg|].
  exact (proj1 (save_tool_keeps_order Demo.py_str Demo.md5_hexdigest
                  "2024-01-03T00:00:00" 1%positive Demo.stored_readers)
           1%positive Hg).
Defined.

Lemma archive_same_second_overwrites_witness :
  name Demo.pick_3_of_4 = name Demo.pick_2_of_2
  /\ archive_dir (archive_tool "20240105_120000" Demo.pick_2_of_2
                    (archive_tool "20240105_120000" Demo.pick_3_of_4 Demo.stored_pick))
       !! "pick_20240105_120000.json" = Some Demo.pick_2_of_2.
Proof.
  split; [reflexivity|].
  exact (proj2 (archive_same_second_overwrites "20240105_120000" Demo.pick_3_of_4
                  Demo.pick_2_of_2 Demo.stored_pick eq_refl)).
Defined.

Lemma archive_distinct_stamps_kept_witness :
  let m' := archive_tool "20240105_120001" Demo.pick_2_of_2
              (archive_tool "20240105_120000" Demo.pick_3_of_4 Demo.stored_pick) in
  archive_dir m' !! "pick_20240105_120000.json" = Some Demo.pick_3_of_4
  /\ archive_dir m' !! "pick_20240105_120001.json" = Some Demo.pick_2_of_2.
Proof.
  cbv zeta.
  apply (archive_distinct_stamps_kept "20240105_120000" "20240105_120001"
           Demo.pick_3_of_4 Demo.pick_2_of_2 Demo.stored_pick eq_refl).
  discriminate.
Defined.

Lemma load_tools_index_witness :
  let files := [("csv-parser", Some Demo.csv_parser); ("notes", None);
                ("copy-of-parser", Some Demo.csv_parser)] in
  let '(h, tools) := _load_tools files 1%positive ∅ [] in
  tools = [("csv-parser", 2%positive)]
  /\ forall k r, In (k, r) tools -> name (h !!! r) = Some k.
Proof.
  cbv zeta.
  pose proof (load_tools_index [("csv-parser", Some Demo.csv_parser); ("notes", None);
                                ("copy-of-parser", Some Demo.csv_parser)]) as H.
  destruct (_load_tools _ 1%positive ∅ []) as [h tools] eqn:E.
  destruct H as (_ & _ & H).
  split; [vm_compute in E; congruence|].
  apply H. intros stem t [[= _ <-]|[[=]|[[= _ <-]|[]]]]; discriminate.
Defined.

Lemma store_bounded_witness :
  let l' := store Demo.exp_str Demo.md5_hexdigest Demo.exp_plot Demo.full_log in
  length (_experiences Demo.full_log) <= max_experiences Demo.full_log
  /\ length (_experiences l') <= max_experiences l'
  /\ _experiences l'
     = [Demo.exp_json; set_id "9e107d9d37" Demo.exp_plot].
Proof.
  cbv zeta.
  assert (Hlen : length (_experiences Demo.full_log) <= max_experiences Demo.full_log)
    by (cbn; lia).
  destruct (store_bounded Demo.exp_str Demo.md5_hexdigest Demo.exp_plot Demo.full_log Hlen)
    as (H1 & _ & _ & H4 & _).
  split; [exact Hlen|]. split; [exact H1|].
  exact (H4 eq_refl ltac:(cbn; lia)).
Defined.

Lemma recall_cut_witness :
  (0 <= 5)%Z
  /\ length (recall "CSV data analysis" 5 Demo.full_log)
     = Nat.min (Z.to_nat 5) (length (recall_ranked "CSV data analysis" Demo.full_log)).
Proof.
  split; [lia|].
  apply (proj1 (proj2 (recall_cut "CSV data analysis" 5 Demo.full_log))). lia.
Defined.

Lemma child_object_passes_through_witness :
  let r := snd (run_code Demo.json_loads Demo.spawn Demo.timeout Demo.pick_code "pick"
                  (PDict [("x", PInt 1)]) []) in
  PyDict.get "elapsed" r = Some (PFloat (1 # 10))
  /\ PyDict.get "output" r = Some (PInt 1).
Proof.
  cbv zeta.
  destruct (child_object_passes_through Demo.json_loads Demo.spawn Demo.timeout
              Demo.pick_code "pick" (PDict [("x", PInt 1)]) []
              (Demo.harness_ok 1) "" (1 # 10)%Q (2 # 10)%Q
              [("ok", PBool true); ("output", PInt 1)]
              eq_refl eq_refl eq_refl) as [H1 H2].
  split; [exact H1|].
  rewrite H2 by discriminate. reflexivity.
Defined.

Lemma silent_or_late_child_is_failure_witness :
  run_result Demo.json_loads Demo.timeout (TimeoutExpired (30 # 1))
  = failure "timed out after 30s" (30 # 1).
Proof.
  exact (proj2 (silent_or_late_child_is_failure Demo.json_loads Demo.timeout
                  (TimeoutExpired (30 # 1))) (30 # 1)%Q eq_refl).
Defined.

Lemma run_tool_runs_code_witness :
  fst (run_tool Demo.json_loads Demo.spawn Demo.timeout Demo.pick_2_of_2
         "pick the first" PNone [])
  = [{| runner_code := Demo.pick_code; runner_func_name := "pick";
        runner_kwargs := PDict [("task", PStr "pick the first")] |}].
Proof.
  apply (proj2 (run_tool_runs_code Demo.json_loads Demo.spawn Demo.timeout
                  Demo.pick_2_of_2 "pick the first" PNone [] Demo.pick_code "pick"
                  eq_refl ltac:(discriminate) eq_refl ltac:(discriminate))).
Defined.

Lemma test_tool_runs_cases_in_order_witness :
  exists log1 v,
    test_tool Demo.py_compile Demo.json_loads Demo.spawn Demo.timeout
      Demo.pick_2_of_4 [] = (log1, Ok v)
    /\ map runner_kwargs log1
       = [PDict [("x", PInt 1)]; PDict [("x", PInt 2)]; PDict [("x", PInt 3)];
          PDict [("x", PInt 4)]]
    /\ map row_label (results v) = ["one"; "two"; "three"; "four"].
Proof.
  eexists _, _. split; [vm_compute; reflexivity|].
  pose proof (test_tool_runs_cases_in_order Demo.py_compile Demo.json_loads
                Demo.spawn Demo.timeout Demo.pick_2_of_4 [] _ _
                (Demo.case_x 1 "one")
                [Demo.case_x 2 "two"; Demo.case_x 3 "three"; Demo.case_x 4 "four"]
                eq_refl eq_refl eq_refl) as (H1 & H2 & _).
  split; [reflexivity|exact H2].
Defined.

Lemma test_tool_verdict_counts_witness :
  exists log1 v,
    test_tool Demo.py_compile Demo.json_loads Demo.spawn Demo.timeout
      Demo.pick_3_of_4 [] = (log1, Ok v)
    /\ passed_count v = Some (hits (results v))
    /\ (passed v = true <-> 3 * 4 <= 4 * hits (results v)).
Proof.
  eexists _, _. split; [vm_compute; reflexivity|].
  pose proof (test_tool_verdict_counts Demo.py_compile Demo.json_loads
                Demo.spawn Demo.timeout Demo.pick_3_of_4 [] _ _
                (Demo.case_x 1 "one")
                [Demo.case_x 2 "two"; Demo.case_x 1 "again"; Demo.case_x 4 "four"]
                eq_refl eq_refl eq_refl) as (H1 & _ & _ & _ & _ & _ & H7 & _).
  split; [exact H1|exact H7].
Defined.

Example case_hit_rule_ex :
  let r := [("ok", PBool true); ("output", PNone); ("elapsed", PFloat (1 # 10))] in
  Py.eq_bool (actual_success (PBool true) r false) false = false.
Proof.
  cbv zeta.
  exact (proj1 (proj2 (case_hit_rule true
                         [("ok", PBool true); ("output", PNone);
                          ("elapsed", PFloat (1 # 10))] false))
           eq_refl eq_refl).
Defined.

Lemma envelope_without_ok_raises_witness :
  let json_loads := fun s => if String.eqb s "{}" then Some (PDict []) else None in
  let spawn := fun (_ : list Runner) (_ : Runner) =>
                 Exited ("{}" +:+ Demo.nl) "" (1 # 10) (2 # 10) in
  test_tool Demo.py_compile json_loads spawn Demo.timeout Demo.pick_2_of_2 []
  = ([case_runner Demo.pick_code "pick" (Demo.case_x 1 "one")], Raise (KeyError "ok")).
Proof.
  cbv zeta.
  exact (envelope_without_ok_raises Demo.py_compile
           (fun s => if String.eqb s "{}" then Some (PDict []) else None)
           (fun _ _ => Exited ("{}" +:+ Demo.nl) "" (1 # 10) (2 # 10))
           Demo.timeout Demo.pick_2_of_2 [] (Demo.case_x 1 "one")
           [Demo.case_x 2 "two"] ("{}" +:+ Demo.nl) "" (1 # 10)%Q (2 # 10)%Q []
           eq_refl eq_refl eq_refl eq_refl eq_refl eq_refl).
Defined.

Lemma vacuous_candidate_saved_then_KeyError_witness :
  let m := Demo.fresh Demo.pick_untested Demo.pick_2_of_2 in
  integrate Demo.py_str Demo.md5_hexdigest Demo.py_compile Demo.json_loads
    Demo.spawn Demo.timeout Integrator_default "2024-01-01T00:00:00" 1%positive m []
  = (save_tool Demo.py_str Demo.md5_hexdigest "2024-01-01T00:00:00" 1%positive m, [],
     Raise (KeyError "passed_count")).
Proof.
  cbv zeta.
  exact (proj1 (proj2 (vacuous_candidate_saved_then_KeyError Demo.py_str
                         Demo.md5_hexdigest Demo.py_compile Demo.json_loads Demo.spawn
                         Demo.timeout Integrator_default "2024-01-01T00:00:00"
                         1%positive (Demo.fresh Demo.pick_untested Demo.pick_2_of_2) []
                         eq_refl eq_refl))).
Defined.


Lemma force_integrate_skips_the_gate_witness :
  let m := Demo.fresh Demo.broken Demo.pick_2_of_2 in
  get_tool "broken"
    (fst (force_integrate Demo.py_str Demo.md5_hexdigest "2024-01-01T00:00:00"
            1%positive m)) = Some 1%positive
  /\ exists rep,
       integrate Demo.py_str Demo.md5_hexdigest Demo.py_compile Demo.json_loads
         Demo.spawn Demo.timeout Integrator_default "2024-01-01T00:00:00"
         1%positive m [] = (m, [], Ok rep)
       /\ rep_ok rep = false
       /\ rep_error rep = Some ("SyntaxError: " +:+ "invalid syntax (<generated>, line 1)").
Proof.
  cbv zeta.
  destruct (force_integrate_skips_the_gate Demo.py_str Demo.md5_hexdigest
              Demo.py_compile Demo.json_loads Demo.spawn Demo.timeout
              Integrator_default "2024-01-01T00:00:00" 1%positive
              (Demo.fresh Demo.broken Demo.pick_2_of_2) []
              "invalid syntax (<generated>, line 1)" eq_refl)
    as (Hi & _ & Hg & _).
  split; [exact Hg|exact Hi].
Defined.

Lemma logged_pass_rate_is_verdict_rate_witness :
  exists log1 v,
    test_tool Demo.py_compile Demo.json_loads Demo.spawn Demo.timeout
      Demo.pick_3_of_4 [] = (log1, Ok v)
    /\ _pass_rate (results v) = Some (pass_rate v).
Proof.
  eexists _, _. split; [vm_compute; reflexivity|].
  exact (logged_pass_rate_is_verdict_rate Demo.py_compile Demo.json_loads
           Demo.spawn Demo.timeout Demo.pick_3_of_4 [] _ _
           (Demo.case_x 1 "one")
           [Demo.case_x 2 "two"; Demo.case_x 1 "again"; Demo.case_x 4 "four"]
           eq_refl eq_refl eq_refl).
Defined.

Lemma record_appends_witness :
  timeline (record 1 "2024-02-01T00:00:01" "choose one" (PStr "pick")
              (PStr "pick a number") None None
              {| history := []; history_file := None |})
  = Some [{| tl_gen := PInt 1; tl_ts := PStr "2024-02-01"; tl_tool := PStr "pick";
             tl_trigger := PStr "choose one" |}].
Proof.
  exact (proj2 (proj2 (record_appends 1 "2024-02-01T00:00:01" "choose one"
                         (PStr "pick") (PStr "pick a number") None
                         {| history := []; history_file := None |} [] eq_refl))).
Defined.

Lemma _evolve_counts_integrations_witness :
  exists a',
    _evolve Demo.py_str Demo.md5_hexdigest Demo.py_compile Demo.json_loads Demo.spawn
      Demo.timeout Demo.write_tool "2024-02-01T00:00:00" "2024-02-01T00:00:01"
      "choose one" (Some "pick a number from a list") Demo.agent0 = (a', Ok true)
    /\ st_generation (ag_state a') = 1%Z
    /\ exists nm,
         st_tools (ag_state a') = [Some nm]
         /\ get_tool nm (ag_memory a') = Some (new_tool_ref (ag_memory Demo.agent0)).
Proof.
  eexists. split; [vm_compute; reflexivity|].
  match goal with
  | |- st_generation (ag_state ?a) = _ /\ _ =>
      destruct (proj2 (_evolve_counts_integrations Demo.py_str Demo.md5_hexdigest
                         Demo.py_compile Demo.json_loads Demo.spawn Demo.timeout
                         Demo.write_tool "2024-02-01T00:00:00" "2024-02-01T00:00:01"
                         "choose one" (Some "pick a number from a list")
                         Demo.agent0 a true ltac:(vm_compute; reflexivity)) eq_refl)
        as (nm & e & Hg & Ht & Hget & _)
  end.
  split; [exact Hg|]. exists nm. split; [exact Ht|exact Hget].
Defined.

Lemma tool_names_are_keys_witness :
  keys_are_names Demo.stored_readers
  /\ tool_names (heap Demo.stored_readers) (all_tools Demo.stored_readers)
     = Ok ["csv-reader"; "csv-loader"].
Proof.
  assert (Hinv : keys_are_names Demo.stored_readers).
  { intros k r [[= <- <-]|[[= <- <-]|[]]]; reflexivity. }
  split; [exact Hinv|].
  exact (tool_names_are_keys Demo.stored_readers Hinv).
Defined.

Lemma best_tool_for_needs_two_words_witness :
  length (task_words "CSV csv  CSV") < 2
  /\ best_tool_for "CSV csv  CSV" Demo.stored_readers = None.
Proof.
  assert (H : length (task_words "CSV csv  CSV") < 2) by (vm_compute; lia).
  split; [exact H|].
  exact (best_tool_for_needs_two_words "CSV csv  CSV" Demo.stored_readers (or_introl H)).
Defined.

Lemma saved_tool_is_found_witness :
  best_tool_for "pick a number"
    (save_tool Demo.py_str Demo.md5_hexdigest "2024-01-01T00:00:00" 1%positive
       (Demo.fresh Demo.pick_2_of_2 Demo.pick_3_of_4)) = Some 1%positive.
Proof.
  refine (proj2 (saved_tool_is_found Demo.py_str Demo.md5_hexdigest
                   "2024-01-01T00:00:00" "pick a number" 1%positive
                   (Demo.fresh Demo.pick_2_of_2 Demo.pick_3_of_4) _) eq_refl).
  vm_compute. lia.
Defined.

(** ** The store on a file system *)

Section StoreFsFacts.

Variable py_str : Tool -> string.
Variable md5_hexdigest : string -> string.
Variable write_text : Dir -> gmap string Tool -> string -> Tool -> WriteOutcome.
Variable unlink : gmap string Tool -> string -> WriteOutcome.

(** Writing a name into a dict that the index holds under that name, or
    does not hold, keeps every key the name of its dict. *)
Lemma rename_keeps_keys now r (m : Memory) tools' dir arch :
  keys_are_names m ->
  (forall k r', In (k, r') tools' ->
     In (k, r') (_tools m)
     \/ (k = saved_name py_str md5_hexdigest (heap m !!! r) /\ r' = r)) ->
  keys_are_names
    {| heap := <[r := set_updated_at now
                         (set_name (saved_name py_str md5_hexdigest (heap m !!! r))
                            (heap m !!! r))]> (heap m);
       _tools := tools'; tools_dir := dir; archive_dir := arch |}.
Proof.
  intros Hinv Hsub k r' Hin. cbn [_tools heap] in *.
  destruct (Hsub k r' Hin) as [Hold|[-> ->]].
  - specialize (Hinv k r' Hold).
    destruct (decide (r = r')) as [<-|Hne].
    + rewrite lookup_total_insert_eq. cbn [set_updated_at set_name name].
      unfold saved_name. rewrite Hinv. reflexivity.
    + rewrite lookup_total_insert_ne by assumption. exact Hinv.
  - rewrite lookup_total_insert_eq. reflexivity.
Qed.

Lemma save_tool_fs_keeps_keys now r m :
  keys_are_names m ->
  keys_are_names (fst (save_tool_fs py_str md5_hexdigest write_text now r m)).
Proof.
  intros Hinv. unfold save_tool_fs. rewrite saved_name_default.
  destruct (write_text _ _ _ _) as [|e remains]; cbn [fst].
  - apply save_tool_keeps_keys. exact Hinv.
  - apply rename_keeps_keys; [exact Hinv|]. intros k r' Hin. left. exact Hin.
Qed.

Lemma archive_tool_fs_keeps_keys stamp t m :
  keys_are_names m ->
  keys_are_names (fst (archive_tool_fs write_text stamp t m)).
Proof.
  intros Hinv. unfold archive_tool_fs.
  destruct (write_text _ _ _ _); cbn [fst]; intros k r Hin; exact (Hinv k r Hin).
Qed.

Lemma delete_tool_fs_keeps_keys stamp nm m :
  keys_are_names m ->
  keys_are_names (fst (delete_tool_fs write_text unlink stamp nm m)).
Proof.
  intros Hinv. unfold delete_tool_fs.
  destruct (PyDict.get nm (_tools m)) as [r|]; [|exact Hinv].
  assert (Hpop : forall m', heap m' = heap m ->
            _tools m' = PyDict.remove nm (_tools m) -> keys_are_names m').
  { intros m' Hh Ht k r' Hin. rewrite Ht in Hin. rewrite Hh.
    apply in_remove_inv in Hin. exact (Hinv k r' Hin). }
  unfold archive_tool_fs, archive_tool. cbn [archive_dir heap _tools tools_dir].
  match goal with
  | |- context [write_text ?a ?b ?c ?d] => destruct (write_text a b c d)
  end; cbn [fst archive_dir heap _tools tools_dir]; [|apply Hpop; reflexivity].
  match goal with
  | |- context [tools_dir m !! ?f] => destruct (tools_dir m !! f)
  end; cbn [fst]; [|apply Hpop; reflexivity].
  match goal with
  | |- context [unlink ?a ?b] => destruct (unlink a b)
  end; cbn [fst]; apply Hpop; reflexivity.
Qed.

(** When every write completes, the calls on the file system are the
    changes of state of the first layer. *)
Lemma fs_ops_complete op m :
  (forall dir d f t, write_text dir d f t = Completed) ->
  (forall d f, unlink d f = Completed) ->
  apply_op_fs py_str md5_hexdigest write_text unlink op m
  = (apply_op py_str md5_hexdigest op m, Ok tt).
Proof.
  intros Hw Hu. destruct op as [now r|stamp t|stamp nm]; cbn [apply_op_fs apply_op].
  - unfold save_tool_fs. rewrite Hw. reflexivity.
  - unfold archive_tool_fs. rewrite Hw. reflexivity.
  - unfold delete_tool_fs, delete_tool, archive_tool_fs.
    destruct (PyDict.get nm (_tools m)) as [r|]; [|reflexivity].
    rewrite Hw. cbn [archive_tool tools_dir].
    destruct (tools_dir m !! (nm +:+ ".json")) eqn:E.
    + rewrite Hu. reflexivity.
    + rewrite delete_id by exact E. destruct m; reflexivity.
Qed.

(** C10 (amended). [save_tool] writes into the dict the name it files it
    under (the name the dict carries, or, when it carries none, ["tool_"]
    and the first ten hex digits of the MD5 of the dict's text) and the
    stamp [updated_at], and leaves its other entries. It returns exactly
    when the write of ["<name>.json"] completes; then the dict is indexed
    under that name, [get_tool] of the name returns it, and the file holds
    it. When the write raises, [save_tool] raises and the index is as it
    was. Whether their writes complete or raise, the writing operations of
    the store keep every key of the index the name of its dict. *)
Theorem save_tool_fs_files_under_name (now : string) (r : loc) (m : Memory) :
  let t := heap m !!! r in
  let nm := saved_name py_str md5_hexdigest t in
  let m' := fst (save_tool_fs py_str md5_hexdigest write_text now r m) in
  let res := snd (save_tool_fs py_str md5_hexdigest write_text now r m) in
  let t' := heap m' !!! r in
  (forall n, name t = Some n -> nm = n)
  /\ (name t = None -> nm = "tool_" +:+ PyStr.take 10 (md5_hexdigest (py_str t)))
  /\ name t' = Some nm
  /\ updated_at t' = Some now
  /\ (func_name t', code t', description t', test_cases t')
     = (func_name t, code t, description t, test_cases t)
  /\ (res = Ok tt <-> write_text ToolsDir (tools_dir m) (nm +:+ ".json") t' = Completed)
  /\ (res = Ok tt ->
        get_tool nm m' = Some r
        /\ tools_dir m' !! (nm +:+ ".json") = Some t'
        /\ forall k, k <> nm -> get_tool k m' = get_tool k m)
  /\ (res <> Ok tt ->
        (exists e, res = Raise e) /\ _tools m' = _tools m)
  /\ (keys_are_names m ->
        forall op,
          keys_are_names
            (fst (apply_op_fs py_str md5_hexdigest write_text unlink op m))).
Proof.
  cbv zeta. unfold save_tool_fs. rewrite saved_name_default.
  split; [intros n Hn; unfold saved_name; rewrite Hn; reflexivity|].
  split; [intros Hn; unfold saved_name; rewrite Hn; reflexivity|].
  set (nm := saved_name py_str md5_hexdigest (heap m !!! r)).
  set (t' := set_updated_at now (set_name nm (heap m !!! r))).
  assert (Hsave : heap (save_tool py_str md5_hexdigest now r m) !!! r = t').
  { rewrite save_tool_content, saved_name_default. reflexivity. }
  assert (Hlast : keys_are_names m ->
            forall op, keys_are_names
              (fst (apply_op_fs py_str md5_hexdigest write_text unlink op m))).
  { intros Hinv [now' r'|stamp t|stamp k]; cbn [apply_op_fs].
    - apply save_tool_fs_keeps_keys; assumption.
    - apply archive_tool_fs_keeps_keys; assumption.
    - apply delete_tool_fs_keeps_keys; assumption. }
  destruct (write_text ToolsDir (tools_dir m) (nm +:+ ".json") t')
    as [|e remains] eqn:Ew; cbn [fst snd].
  - rewrite Hsave. rewrite Ew.
    split; [reflexivity|]. split; [reflexivity|]. split; [reflexivity|].
    split; [tauto|].
    split.
    { intros _. unfold get_tool, save_tool. cbn [_tools tools_dir].
      rewrite saved_name_default. fold nm. fold t'.
      split; [apply get_set_eq|]. split; [apply lookup_insert_eq|].
      intros k Hk. apply get_set_ne. congruence. }
    split; [congruence|exact Hlast].
  - cbn [heap _tools]. rewrite lookup_total_insert_eq. rewrite Ew.
    split; [reflexivity|]. split; [reflexivity|]. split; [reflexivity|].
    split; [split; discriminate|].
    split; [discriminate|].
    split; [|exact Hlast].
    intros _. split; [eexists; reflexivity|reflexivity].
Qed.

End StoreFsFacts.

(** C10 at a dict without a name, on a file system that takes its file. *)
Lemma save_tool_fs_files_under_name_witness :
  let m := Demo.fresh Demo.anonymous Demo.pick_2_of_2 in
  let m' := fst (save_tool_fs Demo.py_str Demo.md5_hexdigest Demo.write_text
                   "2024-01-01T00:00:00" 1%positive m) in
  snd (save_tool_fs Demo.py_str Demo.md5_hexdigest Demo.write_text
         "2024-01-01T00:00:00" 1%positive m) = Ok tt
  /\ keys_are_names m
  /\ name (heap m' !!! 1%positive) = Some "tool_9e107d9d37"
  /\ get_tool "tool_9e107d9d37" m' = Some 1%positive
  /\ keys_are_names
       (fst (apply_op_fs Demo.py_str Demo.md5_hexdigest Demo.write_text Demo.unlink
               (OpSaveTool "2024-01-01T00:00:00" 1%positive) m)).
Proof.
  cbv zeta.
  assert (Hres : snd (save_tool_fs Demo.py_str Demo.md5_hexdigest Demo.write_text
                        "2024-01-01T00:00:00" 1%positive
                        (Demo.fresh Demo.anonymous Demo.pick_2_of_2)) = Ok tt)
    by reflexivity.
  assert (Hinv : keys_are_names (Demo.fresh Demo.anonymous Demo.pick_2_of_2))
    by (intros k r []).
  pose proof (save_tool_fs_files_under_name Demo.py_str Demo.md5_hexdigest
                Demo.write_text Demo.unlink "2024-01-01T00:00:00" 1%positive
                (Demo.fresh Demo.anonymous Demo.pick_2_of_2))
    as (_ & _ & Hname & _ & _ & _ & Hok & _ & Hops).
  split; [exact Hres|]. split; [exact Hinv|]. split; [exact Hname|].
  split; [exact (proj1 (Hok Hres))|].
  exact (Hops Hinv (OpSaveTool "2024-01-01T00:00:00" 1%positive)).
Defined.

(** C10, as stated, fails: the tool named ["io/read"] has no file name in
    the tools directory; the write of ["io/read.json"] raises, [save_tool]
    raises with it, and [get_tool] of the name the dict now carries returns
    nothing. *)
Lemma unwritable_name_is_not_indexed :
  let m := Demo.fresh Demo.io_read Demo.pick_2_of_2 in
  let out := save_tool_fs Demo.py_str Demo.md5_hexdigest Demo.write_text
               "2024-01-01T00:00:00" 1%positive m in
  snd out = Raise (OSError "[Errno 2] No such file or directory: io/read.json")
  /\ name (heap (fst out) !!! 1%positive) = Some "io/read"
  /\ get_tool "io/read" (fst out) = None
  /\ get_tool "io/read" (fst out) <> Some 1%positive.
Proof. cbv zeta. repeat split; try (vm_compute; reflexivity). vm_compute. discriminate. Qed.

(** ** The Gate: the row of every case *)

Section GateRowFacts.

Variable py_compile : string -> option string.
Variable json_loads : string -> option pyval.
Variable spawn : list Runner -> Runner -> ProcOutcome.
Variable timeout : nat.

(** The rows the loop of [test_tool] appends, case by case: the row of the
    case at position [i] is built from the result the engine returned for
    that case. *)
Lemma test_loop_rows c fn tcs : forall rows n log log1 rows1 n1,
  test_loop json_loads spawn timeout c fn tcs rows n log = (log1, Ok (rows1, n1)) ->
  exists new,
    rows1 = rows ++ new
    /\ length new = length tcs
    /\ forall i tc, tcs !! i = Some tc ->
         exists ok,
           PyDict.get "ok" (case_result json_loads spawn timeout c fn log tcs i tc)
             = Some ok
           /\ new !! i
              = Some
                  (let r := case_result json_loads spawn timeout c fn log tcs i tc in
                   let expect_ok := default true (tc_expect_success tc) in
                   {| row_label := default "unnamed" (tc_label tc);
                      row_passed :=
                        Py.eq_bool (actual_success ok r expect_ok) expect_ok;
                      row_expected_success := expect_ok;
                      row_actual_success := actual_success ok r expect_ok;
                      row_output := rget "output" r;
                      row_error := rget "error" r;
                      row_elapsed := rget "elapsed" r |}).
Proof.
  induction tcs as [|tc tcs IH]; intros rows n log log1 rows1 n1; cbn [test_loop].
  - intros [= <- <- <-]. exists []. rewrite app_nil_r.
    split; [reflexivity|]. split; [reflexivity|]. intros i tc' Hi. discriminate.
  - unfold run_code at 1, _run at 1.
    fold (case_runner c fn tc).
    change (run_result json_loads timeout (spawn log (case_runner c fn tc)))
      with (run_result json_loads timeout
              (spawn log (case_runner c fn tc))).
    set (r0 := run_result json_loads timeout (spawn log (case_runner c fn tc))).
    destruct (PyDict.get "ok" r0) as [ok|] eqn:Eok; [|discriminate].
    intros H. apply IH in H. destruct H as (new & Hrows & Hlen & Hnew).
    eexists (_ :: new). split; [rewrite Hrows, <- app_assoc; reflexivity|].
    split; [cbn [length]; rewrite Hlen; reflexivity|].
    intros [|i] tc' Hi.
    + cbn in Hi. injection Hi as <-.
      unfold case_result. cbn [take map]. rewrite app_nil_r. fold r0.
      exists ok. split; [exact Eok|reflexivity].
    + cbn in Hi. destruct (Hnew i tc' Hi) as (ok' & Hok' & Hrow).
      unfold case_result in *. cbn [take map].
      rewrite <- app_assoc in Hok', Hrow. cbn [app] in Hok', Hrow.
      exists ok'. split; [exact Hok'|exact Hrow].
Qed.

(** The rows of a verdict, case by case. *)
Lemma test_tool_rows (tool : Tool) (log log1 : list Runner) (v : Verdict)
    (tc0 : TestCase) (tcs0 : list TestCase) :
  py_compile (default "" (code tool)) = None ->
  test_cases tool = Some (tc0 :: tcs0) ->
  test_tool py_compile json_loads spawn timeout tool log = (log1, Ok v) ->
  length (results v) = length (tc0 :: tcs0)
  /\ forall i tc, (tc0 :: tcs0) !! i = Some tc ->
       exists ok,
         PyDict.get "ok"
           (case_result json_loads spawn timeout (default "" (code tool))
              (default "" (func_name tool)) log (tc0 :: tcs0) i tc) = Some ok
         /\ results v !! i
            = Some
                (let r := case_result json_loads spawn timeout (default "" (code tool))
                            (default "" (func_name tool)) log (tc0 :: tcs0) i tc in
                 let expect_ok := default true (tc_expect_success tc) in
                 {| row_label := default "unnamed" (tc_label tc);
                    row_passed :=
                      Py.eq_bool (actual_success ok r expect_ok) expect_ok;
                    row_expected_success := expect_ok;
                    row_actual_success := actual_success ok r expect_ok;
                    row_output := rget "output" r;
                    row_error := rget "error" r;
                    row_elapsed := rget "elapsed" r |}).
Proof.
  intros Hc Htc. unfold test_tool, _syntax_check. rewrite Hc, Htc.
  cbn [from_option id].
  destruct (test_loop _ _ _ _ _ (tc0 :: tcs0) [] 0 log) as [log' [[rows n]|e]] eqn:Hl;
    [|discriminate].
  intros [= <- <-]. cbn [results].
  apply test_loop_rows in Hl. destruct Hl as (new & -> & Hlen & Hnew).
  cbn [app]. split; [exact Hlen|exact Hnew].
Qed.

(** C4 (amended). For every test case of a verdict [test_tool] returns,
    the row of the case carries the [actual_success] read off the result
    the engine returned for that case; with a boolean [ok] flag [b]: when
    [b] is false it is false; when [b] is true and the output is a dict it
    is the dict's ["success"] entry, or true when the dict has none; when
    [b] is true and the output is not a dict it is true if the output is
    not [None], and otherwise it is the negation of the case's
    [expect_success]. *)
Theorem gate_rows_follow_precedence (tool : Tool) (log log1 : list Runner)
    (v : Verdict) (tc0 : TestCase) (tcs0 : list TestCase) :
  py_compile (default "" (code tool)) = None ->
  test_cases tool = Some (tc0 :: tcs0) ->
  test_tool py_compile json_loads spawn timeout tool log = (log1, Ok v) ->
  length (results v) = length (tc0 :: tcs0)
  /\ forall i tc, (tc0 :: tcs0) !! i = Some tc ->
       exists row,
         results v !! i = Some row
         /\ row_expected_success row = default true (tc_expect_success tc)
         /\ forall b,
              let r := case_result json_loads spawn timeout (default "" (code tool))
                         (default "" (func_name tool)) log (tc0 :: tcs0) i tc in
              PyDict.get "ok" r = Some (PBool b) ->
              (b = false -> row_actual_success row = PBool false)
              /\ (forall d s, b = true -> rget "output" r = PDict d ->
                    PyDict.get "success" d = Some s -> row_actual_success row = s)
              /\ (forall d, b = true -> rget "output" r = PDict d ->
                    PyDict.get "success" d = None ->
                    row_actual_success row = PBool true)
              /\ (b = true -> Py.as_dict (rget "output" r) = None ->
                    rget "output" r <> PNone ->
                    row_actual_success row = PBool true)
              /\ (b = true -> rget "output" r = PNone ->
                    row_actual_success row
                    = PBool (negb (default true (tc_expect_success tc)))).
Proof.
  intros Hc Htc Ht.
  destruct (test_tool_rows tool log log1 v tc0 tcs0 Hc Htc Ht) as [Hlen Hrows].
  split; [exact Hlen|].
  intros i tc Hi. destruct (Hrows i tc Hi) as (ok & Hok & Hrow).
  eexists. split; [exact Hrow|]. cbv zeta. cbn [row_expected_success row_actual_success].
  split; [reflexivity|].
  intros b Hb. rewrite Hb in Hok. injection Hok as <-.
  apply actual_success_rule.
Qed.

(** For every test case of a verdict [test_tool] returns, whether the row
    of the case passed, from the result the engine returned for that case
    with a boolean [ok]: a failed run passes exactly the cases that expect
    failure; a run that succeeds with output [None] passes no case,
    whatever it expects; a run that succeeds with an output that is
    neither [None] nor a dict passes exactly the cases that expect
    success. *)
Theorem gate_scores_case_by_result (tool : Tool) (log log1 : list Runner)
    (v : Verdict) (tc0 : TestCase) (tcs0 : list TestCase) :
  py_compile (default "" (code tool)) = None ->
  test_cases tool = Some (tc0 :: tcs0) ->
  test_tool py_compile json_loads spawn timeout tool log = (log1, Ok v) ->
  forall i tc, (tc0 :: tcs0) !! i = Some tc ->
    exists row,
      results v !! i = Some row
      /\ forall b,
           let r := case_result json_loads spawn timeout (default "" (code tool))
                      (default "" (func_name tool)) log (tc0 :: tcs0) i tc in
           let expect_ok := default true (tc_expect_success tc) in
           PyDict.get "ok" r = Some (PBool b) ->
           (b = false -> row_passed row = negb expect_ok)
           /\ (b = true -> rget "output" r = PNone -> row_passed row = false)
           /\ (b = true -> rget "output" r <> PNone ->
               Py.as_dict (rget "output" r) = None -> row_passed row = expect_ok).
Proof.
  intros Hc Htc Ht i tc Hi.
  destruct (test_tool_rows tool log log1 v tc0 tcs0 Hc Htc Ht) as [_ Hrows].
  destruct (Hrows i tc Hi) as (ok & Hok & Hrow).
  eexists. split; [exact Hrow|]. cbv zeta. cbn [row_passed].
  intros b Hb. rewrite Hb in Hok. injection Hok as <-.
  apply case_hit_rule.
Qed.

End GateRowFacts.

(** ** The selector: which tool a tie goes to *)

Section TieFacts.

Variable h : gmap loc Tool.
Variable words : list string.

(** Tools that do not beat the running best leave it. *)
Lemma best_loop_no_better tools : forall best bs,
  (forall r, In r tools -> score words (h !!! r) <= bs) ->
  best_loop h words tools best bs = (best, bs).
Proof.
  induction tools as [|r0 tools IH]; intros best bs Hall; cbn [best_loop];
    [reflexivity|].
  destruct (Nat.ltb_spec bs (score words (h !!! r0))) as [Hlt|Hge].
  - specialize (Hall r0 (or_introl eq_refl)). lia.
  - apply IH. intros r Hin. apply Hall. right. exact Hin.
Qed.

(** The loop ends on the first tool of the largest score. *)
Lemma best_loop_picks_first_max r post pre : forall best bs,
  (forall r', In r' pre -> score words (h !!! r') < score words (h !!! r)) ->
  (forall r', In r' post -> score words (h !!! r') <= score words (h !!! r)) ->
  bs < score words (h !!! r) ->
  best_loop h words (pre ++ r :: post) best bs = (Some r, score words (h !!! r)).
Proof.
  induction pre as [|r0 pre IH]; intros best bs Hpre Hpost Hbs; cbn [app best_loop].
  - destruct (Nat.ltb_spec bs (score words (h !!! r))) as [_|Hge]; [|lia].
    apply best_loop_no_better. exact Hpost.
  - assert (H0 : score words (h !!! r0) < score words (h !!! r))
      by (apply Hpre; left; reflexivity).
    assert (Hpre' : forall r', In r' pre ->
              score words (h !!! r') < score words (h !!! r))
      by (intros r' Hin; apply Hpre; right; exact Hin).
    destruct (score words (h !!! r0) <=? bs)%nat eqn:E;
      destruct (Nat.ltb_spec bs (score words (h !!! r0))) as [Hlt|Hge];
      apply IH; assumption || lia.
Qed.

End TieFacts.

(** C6 (amended). Of the stored tools of maximal score, [best_tool_for]
    returns the one that comes first in the iteration order of the store
    (the order in which the names were first inserted), provided that score
    is at least 2: when the tools before [r] all score strictly less than
    [r] and the tools after it at most as much, among them the tools that
    tie with [r], the answer is [r], whatever the [updated_at] of the
    tools. *)
Theorem best_tool_for_returns_first_of_ties (task : string) (m : Memory)
    (pre post : list loc) (r : loc) :
  let sc := fun r' => score (task_words task) (heap m !!! r') in
  all_tools m = pre ++ r :: post ->
  2 <= sc r ->
  (forall r', In r' pre -> sc r' < sc r) ->
  (forall r', In r' post -> sc r' <= sc r) ->
  best_tool_for task m = Some r.
Proof.
  cbv zeta. intros Htools Hge Hpre Hpost. unfold best_tool_for. rewrite Htools.
  rewrite (best_loop_picks_first_max (heap m) (task_words task) r post pre None 0
             Hpre Hpost) by lia.
  destruct (Nat.leb_spec 2 (score (task_words task) (heap m !!! r))); [reflexivity|lia].
Qed.

Lemma best_tool_for_returns_first_of_ties_witness :
  let sc := fun r' => score (task_words "CSV rows") (heap Demo.stored_readers !!! r') in
  all_tools Demo.stored_readers = [] ++ 1%positive :: [2%positive]
  /\ sc 1%positive = 2 /\ sc 2%positive = 2
  /\ best_tool_for "CSV rows" Demo.stored_readers = Some 1%positive.
Proof.
  cbv zeta.
  assert (H1 : score (task_words "CSV rows") (heap Demo.stored_readers !!! 1%positive) = 2)
    by (vm_compute; reflexivity).
  assert (H2 : score (task_words "CSV rows") (heap Demo.stored_readers !!! 2%positive) = 2)
    by (vm_compute; reflexivity).
  split; [reflexivity|]. split; [exact H1|]. split; [exact H2|].
  apply (best_tool_for_returns_first_of_ties "CSV rows" Demo.stored_readers
           [] [2%positive] 1%positive eq_refl).
  - rewrite H1. lia.
  - intros r' [].
  - intros r' [<-|[]]. rewrite H1, H2. lia.
Defined.

Lemma gate_rows_follow_precedence_witness :
  exists log1 v row,
    test_tool Demo.py_compile Demo.json_loads Demo.spawn Demo.timeout
      Demo.pick_2_of_4 [] = (log1, Ok v)
    /\ results v !! 2 = Some row
    /\ row_actual_success row = PBool false.
Proof.
  assert (Ht : exists log1 v,
             test_tool Demo.py_compile Demo.json_loads Demo.spawn Demo.timeout
               Demo.pick_2_of_4 [] = (log1, Ok v))
    by (eexists _, _; vm_compute; reflexivity).
  destruct Ht as (log1 & v & Ht).
  destruct (gate_rows_follow_precedence Demo.py_compile Demo.json_loads Demo.spawn
              Demo.timeout Demo.pick_2_of_4 [] log1 v (Demo.case_x 1 "one")
              [Demo.case_x 2 "two"; Demo.case_x 3 "three"; Demo.case_x 4 "four"]
              eq_refl eq_refl Ht) as [_ Hrows].
  destruct (Hrows 2 (Demo.case_x 3 "three") eq_refl) as (row & Hrow & _ & Hrule).
  exists log1, v, row. split; [exact Ht|]. split; [exact Hrow|].
  apply (proj1 (Hrule false ltac:(vm_compute; reflexivity))). reflexivity.
Defined.

Lemma gate_scores_case_by_result_witness :
  exists log1 v row,
    test_tool Demo.py_compile Demo.json_loads Demo.spawn Demo.timeout
      Demo.pick_2_of_4 [] = (log1, Ok v)
    /\ results v !! 0 = Some row
    /\ row_passed row = true.
Proof.
  assert (Ht : exists log1 v,
             test_tool Demo.py_compile Demo.json_loads Demo.spawn Demo.timeout
               Demo.pick_2_of_4 [] = (log1, Ok v))
    by (eexists _, _; vm_compute; reflexivity).
  destruct Ht as (log1 & v & Ht).
  destruct (gate_scores_case_by_result Demo.py_compile Demo.json_loads Demo.spawn
              Demo.timeout Demo.pick_2_of_4 [] log1 v (Demo.case_x 1 "one")
              [Demo.case_x 2 "two"; Demo.case_x 3 "three"; Demo.case_x 4 "four"]
              eq_refl eq_refl Ht 0 (Demo.case_x 1 "one") eq_refl)
    as (row & Hrow & Hrule).
  exists log1, v, row. split; [exact Ht|]. split; [exact Hrow|].
  apply (proj2 (proj2 (Hrule true ltac:(vm_compute; reflexivity)))).
  - reflexivity.
  - vm_compute. discriminate.
  - vm_compute. reflexivity.
Defined.
